(** * py-gasbuddy: a shallow embedding of [py_gasbuddy/__init__.py] and
    [py_gasbuddy/cache.py].

    Decoded JSON and the dictionaries built by the client are Python values
    ([pyval]); Python exceptions are the constructors of [exc]; fallible code
    runs in the result type [res].  The stateful client (token, cache file,
    network) is modelled further down with explicit state passing. *)

From Stdlib Require Import String Ascii List ZArith QArith Bool Lia DecimalString.
Import ListNotations.
Open Scope string_scope.
Set Warnings "-register-all".

(** ** Python values *)

(** Numbers are rationals: every JSON number the upstream sends is a finite
    decimal.  JSON decoding only produces string keys; dictionaries built by
    the client may use any hashable value as a key. *)
Inductive pyval : Type :=
| PNone
| PBool (b : bool)
| PNum (q : Q)
| PStr (s : string)
| PList (l : list pyval)
| PDict (d : list (pyval * pyval)).

(** The exceptions that can leave the modelled functions. [ClientError]
    stands for an [aiohttp.ClientError] other than a timeout (a connection
    error, for instance); timeouts are caught where the code catches them.
    [UnicodeDecodeError] (a [ValueError] subclass) is raised only by reading a
    cache file, where no handler is around. *)
Inductive exc : Type :=
| KeyError | TypeError | IndexError | ValueError | AttributeError
| UnicodeDecodeError
| ClientError
| CSRFTokenMissing | MissingSearchData | LibraryError | APIError.

Inductive res (A : Type) : Type :=
| Ok (a : A)
| Raise (e : exc).
Arguments Ok {A} a.
Arguments Raise {A} e.

Definition rbind {A B : Type} (c : res A) (k : A -> res B) : res B :=
  match c with
  | Ok a => k a
  | Raise e => Raise e
  end.

Notation "x <- c ;; k" := (rbind c (fun x => k))
  (at level 61, c at next level, right associativity).

Fixpoint mapM {A B : Type} (f : A -> res B) (l : list A) : res (list B) :=
  match l with
  | [] => Ok []
  | x :: xs => y <- f x ;; ys <- mapM f xs ;; Ok (y :: ys)
  end.

(** Truth value of a Python object ([bool(v)]). *)
Definition truthy (v : pyval) : bool :=
  match v with
  | PNone => false
  | PBool b => b
  | PNum q => negb (Qeq_bool q 0)
  | PStr s => negb (String.eqb s "")
  | PList l => negb (Nat.eqb (length l) 0)
  | PDict d => negb (Nat.eqb (length d) 0)
  end.

(** [a or b] *)
Definition py_or (a b : pyval) : pyval := if truthy a then a else b.

(** [v == 0]: true for numeric zero and for [False]. *)
Definition eq_zero (v : pyval) : bool :=
  match v with
  | PNum q => Qeq_bool q 0
  | PBool b => negb b
  | _ => false
  end.

Definition hashable (v : pyval) : bool :=
  match v with
  | PList _ | PDict _ => false
  | _ => true
  end.

Definition num_of (v : pyval) : option Q :=
  match v with
  | PNum q => Some q
  | PBool b => Some (if b then 1 else 0)%Q
  | _ => None
  end.

(** Equality of two hashable keys, as dictionary lookup compares them
    ([True == 1 == 1.0]). *)
Definition key_eq (a b : pyval) : bool :=
  match a, b with
  | PNone, PNone => true
  | PStr x, PStr y => String.eqb x y
  | _, _ =>
      match num_of a, num_of b with
      | Some x, Some y => Qeq_bool x y
      | _, _ => false
      end
  end.

(** A dictionary holds each key once; lookup finds it. *)
Fixpoint dict_find (d : list (pyval * pyval)) (k : pyval) : option pyval :=
  match d with
  | [] => None
  | (k', v) :: rest => if key_eq k' k then Some v else dict_find rest k
  end.

(** [d[k] = v]: an existing key keeps its position, a new one goes last. *)
Fixpoint dict_put (d : list (pyval * pyval)) (k v : pyval)
  : list (pyval * pyval) :=
  match d with
  | [] => [(k, v)]
  | (k', v') :: rest =>
      if key_eq k' k then (k', v) :: rest else (k', v') :: dict_put rest k v
  end.

Definition setitem (d : list (pyval * pyval)) (k v : pyval)
  : res (list (pyval * pyval)) :=
  if hashable k then Ok (dict_put d k v) else Raise TypeError.

Fixpoint chars (s : string) : list pyval :=
  match s with
  | EmptyString => []
  | String c rest => PStr (String c EmptyString) :: chars rest
  end.

(** An integer index: a JSON integer or a bool. *)
Definition int_index (k : pyval) : option Z :=
  match k with
  | PNum q => if Pos.eqb (Qden q) 1 then Some (Qnum q) else None
  | PBool b => Some (if b then 1 else 0)%Z
  | _ => None
  end.

(** [l[i]] on a sequence, negative indices counting from the end. *)
Definition seq_index (l : list pyval) (i : Z) : res pyval :=
  let n := Z.of_nat (length l) in
  let j := if (i <? 0)%Z then (i + n)%Z else i in
  if ((j <? 0) || (n <=? j))%Z then Raise IndexError
  else match nth_error l (Z.to_nat j) with
       | Some x => Ok x
       | None => Raise IndexError
       end.

(** [v[k]] *)
Definition getitem (v k : pyval) : res pyval :=
  match v with
  | PDict d =>
      if hashable k then
        match dict_find d k with
        | Some x => Ok x
        | None => Raise KeyError
        end
      else Raise TypeError
  | PList l =>
      match int_index k with
      | Some i => seq_index l i
      | None => Raise TypeError
      end
  | PStr s =>
      match int_index k with
      | Some i => seq_index (chars s) i
      | None => Raise TypeError
      end
  | _ => Raise TypeError
  end.

Definition getpath (v : pyval) (ks : list string) : res pyval :=
  fold_left (fun acc k => x <- acc ;; getitem x (PStr k)) ks (Ok v).

(** [v.get(k, default)]: only dictionaries have [get]. *)
Definition py_get (v k default : pyval) : res pyval :=
  match v with
  | PDict d =>
      if hashable k then
        match dict_find d k with
        | Some x => Ok x
        | None => Ok default
        end
      else Raise TypeError
  | _ => Raise AttributeError
  end.

(** [k in v.keys()] *)
Definition in_keys (k : pyval) (v : pyval) : res bool :=
  match v with
  | PDict d =>
      match dict_find d k with
      | Some _ => Ok true
      | None => Ok false
      end
  | _ => Raise AttributeError
  end.

(** Iterating [for x in v]: a dictionary yields its keys. *)
Definition py_iter (v : pyval) : res (list pyval) :=
  match v with
  | PList l => Ok l
  | PStr s => Ok (chars s)
  | PDict d => Ok (map fst d)
  | _ => Raise TypeError
  end.

Definition py_len (v : pyval) : res Z :=
  match v with
  | PList l => Ok (Z.of_nat (length l))
  | PStr s => Ok (Z.of_nat (String.length s))
  | PDict d => Ok (Z.of_nat (length d))
  | _ => Raise TypeError
  end.

(** Number of elements kept by [seq[:stop]] on a sequence of length [n]. *)
Definition slice_stop (n stop : Z) : nat :=
  Z.to_nat (if (stop <? 0)%Z then Z.max 0 (n + stop) else Z.min stop n).

(** [v[:stop]]; slicing a dictionary fails (a slice is not a valid key). *)
Definition slice_upto (v : pyval) (stop : Z) : res (list pyval) :=
  match v with
  | PList l => Ok (firstn (slice_stop (Z.of_nat (length l)) stop) l)
  | PStr s =>
      Ok (firstn (slice_stop (Z.of_nat (String.length s)) stop) (chars s))
  | _ => Raise TypeError
  end.

(** ** The response normalizer *)

(** [GasBuddy._format_price_node] *)
Definition _format_price_node (price_node : pyval) : res pyval :=
  credit <- py_get price_node (PStr "credit") PNone ;;
  let credit_data := py_or credit (PDict []) in
  cash <- py_get price_node (PStr "cash") PNone ;;
  let cash_data := py_or cash (PDict []) in
  credit_price <- py_get credit_data (PStr "price") (PNum 0) ;;
  cash_price <- py_get cash_data (PStr "price") (PNum 0) ;;
  nickname <- py_get credit_data (PStr "nickname") PNone ;;
  posted <- py_get credit_data (PStr "postedTime") PNone ;;
  Ok (PDict [(PStr "credit", nickname);
             (PStr "cash_price", if eq_zero cash_price then PNone else cash_price);
             (PStr "price", if eq_zero credit_price then PNone else credit_price);
             (PStr "last_updated", posted)]).

(** The loop [for price in prices: data[price["fuelProduct"]] = ...] over a
    dictionary under construction. *)
Fixpoint add_prices (data : list (pyval * pyval)) (prices : list pyval)
  : res (list (pyval * pyval)) :=
  match prices with
  | [] => Ok data
  | price :: rest =>
      index <- getitem price (PStr "fuelProduct") ;;
      node <- _format_price_node price ;;
      data' <- setitem data index node ;;
      add_prices data' rest
  end.

(** The body of the loop of [GasBuddy._parse_results] for one station. *)
Definition parse_station (result : pyval) : res pyval :=
  sid <- getitem result (PStr "id") ;;
  unit <- getitem result (PStr "priceUnit") ;;
  cur <- getitem result (PStr "currency") ;;
  lat <- getitem result (PStr "latitude") ;;
  lon <- getitem result (PStr "longitude") ;;
  prices <- getitem result (PStr "prices") ;;
  ps <- py_iter prices ;;
  data <- add_prices [(PStr "station_id", sid); (PStr "unit_of_measure", unit);
                      (PStr "currency", cur); (PStr "latitude", lat);
                      (PStr "longitude", lon)] ps ;;
  Ok (PDict data).

Definition results_path : list string :=
  ["data"; "locationBySearchTerm"; "stations"; "results"].

Definition trends_path : list string :=
  ["data"; "locationBySearchTerm"; "trends"].

(** [GasBuddy._parse_results] *)
Definition _parse_results (response : pyval) (limit : Z) : res (list pyval) :=
  results <- getpath response results_path ;;
  kept <- slice_upto results limit ;;
  mapM parse_station kept.

(** One trend record of [GasBuddy._parse_trends]. *)
Definition parse_trend (trend : pyval) : res pyval :=
  avg <- getitem trend (PStr "today") ;;
  low <- getitem trend (PStr "todayLow") ;;
  area <- getitem trend (PStr "areaName") ;;
  Ok (PDict [(PStr "average_price", avg); (PStr "lowest_price", low);
             (PStr "area", area)]).

(** [GasBuddy._parse_trends] *)
Definition _parse_trends (response : pyval) : res (list pyval) :=
  trends <- getpath response trends_path ;;
  ts <- py_iter trends ;;
  mapM parse_trend ts.

(** The station normalization at the end of [GasBuddy.price_lookup]. *)
Definition normalize_station (response : pyval) : res pyval :=
  station <- getpath response ["data"; "station"] ;;
  sid <- getitem station (PStr "id") ;;
  unit <- getitem station (PStr "priceUnit") ;;
  cur <- getitem station (PStr "currency") ;;
  lat <- getitem station (PStr "latitude") ;;
  lon <- getitem station (PStr "longitude") ;;
  brands <- getitem station (PStr "brands") ;;
  nb <- py_len brands ;;
  image <- (if (0 <? nb)%Z
            then b0 <- getitem brands (PNum 0) ;; getitem b0 (PStr "imageUrl")
            else Ok PNone) ;;
  prices <- getitem station (PStr "prices") ;;
  ps <- py_iter prices ;;
  data <- add_prices [(PStr "station_id", sid); (PStr "unit_of_measure", unit);
                      (PStr "currency", cur); (PStr "latitude", lat);
                      (PStr "longitude", lon); (PStr "image_url", image)] ps ;;
  Ok (PDict data).

(** The message logged by [GasBuddy.price_lookup] for an [errors] payload:
    [response["errors"]["message"]], on [ValueError]/[TypeError] falling back
    to [response["errors"][0]["message"]], and on [IndexError], [ValueError]
    or [TypeError] to a fixed string.  Other exceptions propagate. *)
Definition lookup_errors_message (response : pyval) : res pyval :=
  errs <- getitem response (PStr "errors") ;;
  match getitem errs (PStr "message") with
  | Ok m => Ok m
  | Raise (ValueError | TypeError) =>
      match (e0 <- getitem errs (PNum 0) ;; getitem e0 (PStr "message")) with
      | Ok m => Ok m
      | Raise (IndexError | ValueError | TypeError) =>
          Ok (PStr "Server side error occured.")
      | Raise e => Raise e
      end
  | Raise e => Raise e
  end.

(** The message logged by [GasBuddy.price_lookup_service]: only
    [response["errors"]["message"]]. *)
Definition service_errors_message (response : pyval) : res pyval :=
  errs <- getitem response (PStr "errors") ;;
  getitem errs (PStr "message").

(** ** The client: constants, state and world *)

Definition BASE_URL : string := "https://www.gasbuddy.com/graphql".
Definition ERROR_TIMEOUT : string := "Timeout while updating".
Definition MAX_RETRIES : nat := 5.

(** Modelled from the spec: [consts.GB_HOME_URL] ([py_gasbuddy/consts.py] is
    not in the sources); the landing page the token is scraped from, at the
    address the tests mock. *)
Definition GB_HOME_URL : string := "https://www.gasbuddy.com/home".

(** Modelled from the spec: [consts.TOKEN], the token field name of the cache
    record ([{<token-field-name>: <token-string>}]); its value is not given. *)
Definition TOKEN : string := "gbcsrf".

(** Modelled from the spec: the fixed GraphQL documents of [consts.py]; only
    their identity matters here. *)
Definition GAS_PRICE_QUERY : pyval := PStr "GAS_PRICE_QUERY".
Definition LOCATION_QUERY : pyval := PStr "LOCATION_QUERY".
Definition LOCATION_QUERY_PRICES : pyval := PStr "LOCATION_QUERY_PRICES".

(** [Path(__file__).parent / "gasbuddy_cache"]: the package directory. *)
Definition DEFAULT_CACHE : string := "py_gasbuddy/gasbuddy_cache".

(** The attributes of a [GasBuddy] instance.  [_cache_manager] is the path of
    the [GasBuddyCache] object once one has been created. *)
Record client : Type := mkClient {
  _id : option Z;
  _solver : option string;
  _tag : pyval;
  _cf_last : option bool;
  _cache_file : string;
  _cache_manager : option string;
  _timeout : Z
}.

(** [GasBuddy(station_id, solver_url, cache_file, timeout)] *)
Definition new_client (station_id : option Z) (solver_url : option string)
    (cache_file : string) (timeout : Z) : client :=
  mkClient station_id solver_url (PStr "") None cache_file None timeout.

(** What reading a file in text mode and passing its text to [json.loads]
    gives: a value, a [JSONDecodeError] ([NotJSON]), a [UnicodeDecodeError]
    of the read, for bytes that are not text in the locale's encoding
    ([NotText]), or a [ValueError] of [json.loads] that is not a
    [JSONDecodeError], such as an integer literal over the digit limit
    ([LoadsValueError]). *)
Inductive loaded : Type :=
| Loaded (v : pyval)
| NotJSON
| NotText
| LoadsValueError.

(** A file: its bytes, and what reading and decoding it gives. *)
Record file : Type := mkFile { ftext : string; fjson : loaded }.

(** What the network answers to one request: a response with its status, its
    text and the [json.loads] of that text ([None] when it is not JSON), a
    timeout, a connection-level [aiohttp.ClientError], or a
    [ContentTypeError]. *)
Inductive reply : Type :=
| Response (status : Z) (text : string) (decoded : option pyval)
| Timeout
| ConnError
| ContentTypeErr.

(** Observable effects, in order. *)
Inductive event : Type :=
| EvIsFile (path : string)
| EvRead (path : string)
| EvWrite (path : string)
| EvRemove (path : string)
| EvFetch (method url : string) (json_data : pyval)
| EvPost (url : string) (token : pyval) (query : pyval).

(** The client, the file system, the network (the answer to the [n]-th
    request is [w_net n]), the trace of effects and the wall clock: [w_clock n]
    is the time, in seconds, at which the client, having sent [n] requests,
    takes its next step (request durations and backoff waits are the
    environment's). *)
Record world : Type := mkWorld {
  w_client : client;
  w_fs : list (string * file);
  w_net : nat -> reply;
  w_sent : nat;
  w_trace : list event;
  w_clock : nat -> Q
}.

Definition M (A : Type) : Type := world -> res A * world.

Definition mret {A : Type} (a : A) : M A := fun w => (Ok a, w).

Definition mbind {A B : Type} (c : M A) (k : A -> M B) : M B :=
  fun w => match c w with
           | (Ok a, w') => k a w'
           | (Raise e, w') => (Raise e, w')
           end.

Notation "'let!' x ':=' c 'in' k" := (mbind c (fun x => k))
  (at level 200, x name, c at level 100, k at level 200).

Definition raise {A : Type} (e : exc) : M A := fun w => (Raise e, w).

Definition lift {A : Type} (r : res A) : M A := fun w => (r, w).

(** Run [c] and return its outcome, exception included ([try]). *)
Definition attempt {A : Type} (c : M A) : M (res A) :=
  fun w => let (r, w') := c w in (Ok r, w').

Definition get_client : M client := fun w => (Ok (w_client w), w).

Definition put_client (c : client) : M unit :=
  fun w => (Ok tt, mkWorld c (w_fs w) (w_net w) (w_sent w) (w_trace w) (w_clock w)).

Definition emit (e : event) : M unit :=
  fun w => (Ok tt, mkWorld (w_client w) (w_fs w) (w_net w) (w_sent w)
                           (w_trace w ++ [e]) (w_clock w)).

Definition next_reply : M reply :=
  fun w => (Ok (w_net w (w_sent w)),
            mkWorld (w_client w) (w_fs w) (w_net w) (S (w_sent w)) (w_trace w)
                    (w_clock w)).

Definition put_fs (fs : list (string * file)) : M unit :=
  fun w => (Ok tt, mkWorld (w_client w) fs (w_net w) (w_sent w) (w_trace w) (w_clock w)).

Definition get_fs : M (list (string * file)) := fun w => (Ok (w_fs w), w).

Definition set_tag (t : pyval) : M unit :=
  let! c := get_client in
  put_client (mkClient (_id c) (_solver c) t (_cf_last c) (_cache_file c)
                       (_cache_manager c) (_timeout c)).

Definition set_cf_last (b : option bool) : M unit :=
  let! c := get_client in
  put_client (mkClient (_id c) (_solver c) (_tag c) b (_cache_file c)
                       (_cache_manager c) (_timeout c)).

Definition set_cache_manager (m : option string) : M unit :=
  let! c := get_client in
  put_client (mkClient (_id c) (_solver c) (_tag c) (_cf_last c)
                       (_cache_file c) m (_timeout c)).

(** The clock as read by the client now. *)
Definition now (w : world) : Q := w_clock w (w_sent w).

(** [max_time_exceeded] of the backoff: [elapsed >= max_time]. *)
Definition time_up (max_time : option Q) (elapsed : Q) : bool :=
  match max_time with
  | Some t => Qle_bool t elapsed
  | None => false
  end.

(** The retry loop of [backoff.on_exception] started at time [start], with
    [tries] attempts left: the elapsed time is taken before each attempt;
    when the attempt raises a [ClientError], the exception propagates if it
    was the last attempt or if [elapsed >= max_time], and otherwise the call
    is repeated on the state it left (the wait has no effect on the
    state). *)
Fixpoint retry_loop {A : Type} (max_time : option Q) (start : Q) (tries : nat)
    (f : M A) : M A :=
  fun w =>
    match tries with
    | O | S O => f w
    | S n =>
        let elapsed := (now w - start)%Q in
        match f w with
        | (Raise ClientError, w') =>
            if time_up max_time elapsed then (Raise ClientError, w')
            else retry_loop max_time start n f w'
        | r => r
        end
    end.

(** [backoff.on_exception(backoff.expo, aiohttp.ClientError,
    max_time=max_time, max_tries=tries)] *)
Definition on_client_error {A : Type} (max_time : option Q) (tries : nat) (f : M A)
  : M A :=
  fun w => retry_loop max_time (now w) tries f w.

(** ** [GasBuddyCache] *)

Fixpoint fs_find (fs : list (string * file)) (p : string) : option file :=
  match fs with
  | [] => None
  | (p', f) :: rest => if String.eqb p' p then Some f else fs_find rest p
  end.

Definition fs_remove (fs : list (string * file)) (p : string)
  : list (string * file) :=
  filter (fun e => negb (String.eqb (fst e) p)) fs.

Definition fs_store (fs : list (string * file)) (p : string) (f : file)
  : list (string * file) :=
  (p, f) :: fs_remove fs p.

(** [GasBuddyCache(cache_file)._cache_file] *)
Definition cache_path (cache_file : string) : string :=
  if String.eqb cache_file "" then DEFAULT_CACHE else cache_file.

(** [GasBuddyCache.cache_exists]: a file of more than 30 bytes. *)
Definition cache_exists (p : string) : M bool :=
  let! _ := emit (EvIsFile p) in
  let! fs := get_fs in
  match fs_find fs p with
  | Some f => mret (30 <? String.length (ftext f))%nat
  | None => mret false
  end.

(** [GasBuddyCache.read_cache]: [{}] when absent or on a
    [JSONDecodeError]; the other errors of the read and of [json.loads]
    propagate. *)
Definition read_cache (p : string) : M pyval :=
  let! fs := get_fs in
  match fs_find fs p with
  | Some f =>
      let! _ := emit (EvRead p) in
      match fjson f with
      | Loaded v => mret v
      | NotJSON => mret (PDict [])
      | NotText => raise UnicodeDecodeError
      | LoadsValueError => raise ValueError
      end
  | None => mret (PDict [])
  end.

(** [GasBuddyCache.write_cache] *)
Definition write_cache (p : string) (data : file) : M unit :=
  let! _ := emit (EvWrite p) in
  let! fs := get_fs in
  put_fs (fs_store fs p data).

(** [GasBuddyCache.clear_cache] *)
Definition cache_clear (p : string) : M unit :=
  let! ex := cache_exists p in
  if ex then
    let! _ := emit (EvRemove p) in
    let! fs := get_fs in
    put_fs (fs_remove fs p)
  else mret tt.

(** ** Token extraction and storage *)

Definition dq : string := String (ascii_of_nat 34) EmptyString.

Definition hex_digit (n : nat) : ascii :=
  if (n <? 10)%nat then ascii_of_nat (48 + n) else ascii_of_nat (87 + n).

(** One character as [json.dumps] writes it inside a string literal
    ([ensure_ascii]). *)
Definition json_escape_char (c : ascii) : string :=
  let n := nat_of_ascii c in
  if (n =? 34)%nat then String "\" dq
  else if (n =? 92)%nat then "\\"
  else if (n =? 10)%nat then "\n"
  else if (n =? 13)%nat then "\r"
  else if (n =? 9)%nat then "\t"
  else if (n =? 8)%nat then "\b"
  else if (n =? 12)%nat then "\f"
  else if ((n <? 32) || (126 <? n))%nat then
    "\u00" ++ String (hex_digit (n / 16)) (String (hex_digit (n mod 16)) "")
  else String c "".

Fixpoint json_escape (s : string) : string :=
  match s with
  | EmptyString => ""
  | String c rest => json_escape_char c ++ json_escape rest
  end.

Definition json_str (s : string) : string := dq ++ json_escape s ++ dq.

(** [json.dumps({TOKEN: tag}).encode("utf-8")], with the value it decodes to. *)
Definition token_file (tag : string) : file :=
  mkFile ("{" ++ json_str TOKEN ++ ": " ++ json_str tag ++ "}")
         (Loaded (PDict [(PStr TOKEN, PStr tag)])).

(** [\s] of a [str] pattern, on one-byte characters. *)
Definition is_space (c : ascii) : bool :=
  let n := nat_of_ascii c in
  (((9 <=? n) && (n <=? 13)) || ((28 <=? n) && (n <=? 32))
   || (n =? 133) || (n =? 160))%nat.

Fixpoint skip_space (s : string) : string :=
  match s with
  | String c rest => if is_space c then skip_space rest else s
  | EmptyString => s
  end.

(** The lazy group [(.*?)] and the closing [\1]: the shortest run of
    non-newline characters closed by a double quote. *)
Fixpoint upto_quote (s : string) : option string :=
  match s with
  | EmptyString => None
  | String c rest =>
      if (nat_of_ascii c =? 34)%nat then Some ""
      else if (nat_of_ascii c =? 10)%nat then None
      else option_map (String c) (upto_quote rest)
  end.

Definition csrf_marker : string := "window.gbcsrf".

(** [CSRF_PATTERN] matched at the start of [s]: group 2. *)
Definition csrf_match_here (s : string) : option string :=
  if String.prefix csrf_marker s then
    match skip_space (substring (String.length csrf_marker) (String.length s) s) with
    | String eq rest =>
        if (nat_of_ascii eq =? 61)%nat then
          match skip_space rest with
          | String q body =>
              if (nat_of_ascii q =? 34)%nat then upto_quote body else None
          | EmptyString => None
          end
        else None
    | EmptyString => None
    end
  else None.

(** [CSRF_PATTERN.search(s)]: the leftmost match. *)
Fixpoint csrf_search (s : string) : option string :=
  match csrf_match_here s with
  | Some t => Some t
  | None =>
      match s with
      | EmptyString => None
      | String _ rest => csrf_search rest
      end
  end.

(** [if self._solver:]: a solver URL is used when it is given and not
    empty. *)
Definition solver_set (solver : option string) : bool :=
  match solver with
  | Some s => negb (String.eqb s "")
  | None => false
  end.

(** The request a token acquisition sends: a GET of the landing page, or a
    POST of a request description to the solver. *)
Definition token_request (c : client) : string * string * pyval :=
  match _solver c with
  | Some solver =>
      if solver_set (Some solver) then
        (solver, "post",
         PDict [(PStr "cmd", PStr "request.get"); (PStr "url", PStr GB_HOME_URL);
                (PStr "maxTimeout", PNum (inject_Z (_timeout c)))])
      else (GB_HOME_URL, "get", PDict [])
  | None => (GB_HOME_URL, "get", PDict [])
  end.

(** [GasBuddy._get_headers] once the token request is sent: read the answer,
    extract the token and store it with the cache manager at [mgr]. *)
Definition fetch_token (solver : option string) (mgr : string) : M unit :=
  let! r := next_reply in
  match r with
  | Timeout => mret tt
  | ConnError | ContentTypeErr => raise ClientError
  | Response status text decoded =>
      if negb (status =? 200)%Z then mret tt
      else
        let! message :=
          if solver_set solver then
            match decoded with
            | Some v => lift (getpath v ["solution"; "response"])
            | None => raise ValueError
            end
          else mret (PStr text) in
        match message with
        | PStr m =>
            match csrf_search m with
            | Some t =>
                let! _ := set_tag (PStr t) in
                write_cache mgr (token_file t)
            | None => raise CSRFTokenMissing
            end
        | _ => raise TypeError
        end
  end.

(** The body of [GasBuddy._get_headers], one attempt. *)
Definition _get_headers_once : M unit :=
  let! c := get_client in
  let mgr := if negb (String.eqb (_cache_file c) "")
                && match _cache_manager c with None => true | Some _ => false end
             then cache_path (_cache_file c)
             else cache_path "" in
  let! _ := set_cache_manager (Some mgr) in
  let! ex := cache_exists mgr in
  let! _ :=
    if ex then
      let! cache_data := read_cache mgr in
      match cache_data with
      | PDict d =>
          match dict_find d (PStr TOKEN) with
          | Some t => set_tag t
          | None => set_tag (PStr "")
          end
      | _ => set_tag (PStr "")
      end
    else set_cf_last (Some false) in
  let! c := get_client in
  let '(url, method, json_data) := token_request c in
  match _cf_last c with
  | None | Some true => mret tt
  | Some false =>
      let! _ := emit (EvFetch method url json_data) in
      fetch_token (_solver c) mgr
  end.

(** [GasBuddy._get_headers] with its backoff decorator. *)
Definition _get_headers : M unit := on_client_error None MAX_RETRIES _get_headers_once.

(** ** Request execution *)

Definition error_result (v : pyval) : pyval := PDict [(PStr "error", v)].

(** The body of [GasBuddy.process_request], one attempt. *)
Definition process_request_once (query : pyval) : M pyval :=
  let! h := attempt _get_headers in
  match h with
  | Raise CSRFTokenMissing => mret (error_result (PStr "Missing Token"))
  | Raise e => raise e
  | Ok _ =>
      let! c := get_client in
      let! _ := emit (EvPost BASE_URL (_tag c) query) in
      let! r := next_reply in
      match r with
      | Timeout => mret (error_result (PStr ERROR_TIMEOUT))
      | ContentTypeErr => mret (error_result (PStr "ContentTypeError"))
      | ConnError => raise ClientError
      | Response status text decoded =>
          let! message :=
            match decoded with
            | Some v => let! _ := set_cf_last (Some true) in mret v
            | None =>
                let! _ := set_cf_last (Some false) in
                mret (error_result (PStr text))
            end in
          if (status =? 403)%Z then
            let! _ := set_cf_last (Some false) in mret message
          else if negb (status =? 200)%Z then
            let! _ := set_cf_last (Some false) in mret (error_result message)
          else mret message
      end
  end.

(** [GasBuddy.process_request] with its backoff decorator. *)
Definition process_request (query : pyval) : M pyval :=
  on_client_error (Some 60) MAX_RETRIES (process_request_once query).

(** ** Public operations *)

Definition py_str_int (z : Z) : string := NilZero.string_of_int (Z.to_int z).

(** [str(self._id)] *)
Definition station_id_str (id : option Z) : string :=
  match id with
  | Some z => py_str_int z
  | None => "None"
  end.

(** The [variables] mapping built by [location_search] and
    [price_lookup_service]; [None] when neither a coordinate pair nor a zip
    code is given. *)
Definition search_variables (lat lon : option Q) (zipcode : option Z)
  : option pyval :=
  match lat, lon with
  | Some la, Some lo =>
      Some (PDict [(PStr "maxAge", PNum 0); (PStr "lat", PNum la);
                   (PStr "lng", PNum lo)])
  | _, _ =>
      match zipcode with
      | Some z => Some (PDict [(PStr "maxAge", PNum 0);
                               (PStr "search", PStr (py_str_int z))])
      | None => None
      end
  end.

Definition graphql_query (name : string) (doc variables : pyval) : pyval :=
  PDict [(PStr "operationName", PStr name); (PStr "query", doc);
         (PStr "variables", variables)].

(** [GasBuddy.location_search] *)
Definition location_search (lat lon : option Q) (zipcode : option Z) : M pyval :=
  match search_variables lat lon zipcode with
  | Some variables =>
      process_request (graphql_query "LocationBySearchTerm" LOCATION_QUERY variables)
  | None => raise MissingSearchData
  end.

(** The query sent by [GasBuddy.price_lookup]. *)
Definition price_query (id : option Z) : pyval :=
  graphql_query "GetStation" GAS_PRICE_QUERY
    (PDict [(PStr "id", PStr (station_id_str id))]).

(** [GasBuddy.price_lookup] *)
Definition price_lookup : M pyval :=
  let! c := get_client in
  let! response := process_request (price_query (_id c)) in
  let! has_error := lift (in_keys (PStr "error") response) in
  if has_error then raise LibraryError
  else
    let! has_errors := lift (in_keys (PStr "errors") response) in
    if has_errors then
      let! _ := lift (lookup_errors_message response) in
      raise APIError
    else lift (normalize_station response).

(** The query sent by [GasBuddy.price_lookup_service]: [variables] stays
    [{}] when no search data is given. *)
Definition service_query (lat lon : option Q) (zipcode : option Z) : pyval :=
  graphql_query "LocationBySearchTerm" LOCATION_QUERY_PRICES
    match search_variables lat lon zipcode with
    | Some v => v
    | None => PDict []
    end.

(** What [GasBuddy.price_lookup_service] does with the response. *)
Definition service_result (limit : Z) (response : pyval) : M pyval :=
  let! has_error := lift (in_keys (PStr "error") response) in
  if has_error then raise LibraryError
  else
    let! has_errors := lift (in_keys (PStr "errors") response) in
    if has_errors then
      let! _ := lift (service_errors_message response) in
      raise APIError
    else
      let! result_list := lift (_parse_results response limit) in
      let! trend_data := lift (_parse_trends response) in
      mret (PDict ((PStr "results", PList result_list)
                   :: if truthy (PList trend_data)
                      then [(PStr "trend", PList trend_data)] else [])).

(** [GasBuddy.price_lookup_service] *)
Definition price_lookup_service (lat lon : option Q) (zipcode : option Z)
    (limit : Z) : M pyval :=
  let! response := process_request (service_query lat lon zipcode) in
  service_result limit response.

(** [GasBuddy.clear_cache] *)
Definition clear_cache : M unit :=
  let! c := get_client in
  match _cache_manager c with
  | Some p => cache_clear p
  | None => mret tt
  end.

(** * Properties *)

(** ** Evaluation lemmas *)

Lemma py_get_str (d : list (pyval * pyval)) (k : string) (dflt : pyval) :
  py_get (PDict d) (PStr k) dflt =
  Ok (match dict_find d (PStr k) with Some x => x | None => dflt end).
Proof. simpl. destruct (dict_find d (PStr k)); reflexivity. Qed.

Lemma rbind_ok {A B : Type} (c : res A) (k : A -> res B) (b : B) :
  rbind c k = Ok b -> exists a, c = Ok a /\ k a = Ok b.
Proof. destruct c; simpl; [eauto | discriminate]. Qed.

Ltac rbind_ok_in H :=
  let a := fresh "a" in let Ha := fresh "Ha" in
  apply rbind_ok in H; destruct H as [a [Ha H]].

(** What a successful [_format_price_node] returns, step by step. *)
Lemma format_price_node_ok (node r : pyval) :
  _format_price_node node = Ok r ->
  exists nd credit_price cash_price nickname posted,
    node = PDict nd /\
    py_get (py_or (match dict_find nd (PStr "credit") with
                   | Some x => x | None => PNone end) (PDict []))
           (PStr "price") (PNum 0) = Ok credit_price /\
    py_get (py_or (match dict_find nd (PStr "cash") with
                   | Some x => x | None => PNone end) (PDict []))
           (PStr "price") (PNum 0) = Ok cash_price /\
    r = PDict [(PStr "credit", nickname);
               (PStr "cash_price", if eq_zero cash_price then PNone else cash_price);
               (PStr "price", if eq_zero credit_price then PNone else credit_price);
               (PStr "last_updated", posted)].
Proof.
  intro H. unfold _format_price_node in H.
  destruct node as [| | | | | nd]; try (simpl in H; discriminate).
  rewrite !py_get_str in H. cbn [rbind] in H.
  rbind_ok_in H. rbind_ok_in H. rbind_ok_in H. rbind_ok_in H.
  injection H as <-.
  exists nd, a, a0, a1, a2. repeat split; assumption.
Qed.

Lemma eq_zero_guard (p : pyval) :
  eq_zero (if eq_zero p then PNone else p) = false.
Proof. destruct (eq_zero p) eqn:E; [reflexivity | exact E]. Qed.

(** ** Price records *)

(** The cash-price field of a record normalized from the dictionary [nd]:
    present, equal to the cash price when the cash sub-object is a dictionary
    whose price is present and not [== 0], and null otherwise. *)
Definition cash_field_spec (nd : list (pyval * pyval)) (r : pyval) : Prop :=
  exists rd v,
    r = PDict rd /\ dict_find rd (PStr "cash_price") = Some v /\
    (forall cd p, dict_find nd (PStr "cash") = Some (PDict cd) ->
       dict_find cd (PStr "price") = Some p -> eq_zero p = false -> v = p) /\
    ((forall cd p, dict_find nd (PStr "cash") = Some (PDict cd) ->
        dict_find cd (PStr "price") = Some p -> eq_zero p = true) ->
     v = PNone).

(** The credit price of a price node is unreported: the credit sub-object is
    absent or null, or its price is absent, null or numerically 0. *)
Definition credit_price_unreported (nd : list (pyval * pyval)) : Prop :=
  dict_find nd (PStr "credit") = None \/
  dict_find nd (PStr "credit") = Some PNone \/
  exists cd, dict_find nd (PStr "credit") = Some (PDict cd) /\
    (dict_find cd (PStr "price") = None \/
     dict_find cd (PStr "price") = Some PNone \/
     exists q, dict_find cd (PStr "price") = Some (PNum q) /\ (q == 0)%Q).

(** The price field of a normalized record: present and never [== 0]; null
    whenever the credit price is unreported. *)
Definition credit_field_spec (nd : list (pyval * pyval)) (r : pyval) : Prop :=
  exists rd v,
    r = PDict rd /\ dict_find rd (PStr "price") = Some v /\
    eq_zero v = false /\ (credit_price_unreported nd -> v = PNone).

Definition premium_node : pyval :=
  PDict [(PStr "fuelProduct", PStr "premium_gas"); (PStr "credit", PNone)].

Definition premium_record : pyval :=
  PDict [(PStr "credit", PNone); (PStr "cash_price", PNone);
         (PStr "price", PNone); (PStr "last_updated", PNone)].

Definition regular_node_no_cash : pyval :=
  PDict [(PStr "fuelProduct", PStr "regular_gas");
         (PStr "credit", PDict [(PStr "nickname", PStr "Flemmit");
                                (PStr "postedTime", PStr "2024-01-01T00:00:00Z");
                                (PStr "price", PNum (327 # 100))])].

Definition regular_node_cash : pyval :=
  PDict [(PStr "fuelProduct", PStr "regular_gas");
         (PStr "credit", PDict [(PStr "nickname", PStr "Flemmit");
                                (PStr "postedTime", PStr "2024-01-01T00:00:00Z");
                                (PStr "price", PNum (327 # 100))]);
         (PStr "cash", PDict [(PStr "price", PNum (317 # 100))])].

Lemma truthy_found (cd : list (pyval * pyval)) (k p : pyval) :
  dict_find cd k = Some p -> truthy (PDict cd) = true.
Proof. destruct cd; [discriminate | reflexivity]. Qed.

(** ** C1 *)

(** C1 (amended): every normalized price record carries the cash-price field.
    It holds the cash price when the cash sub-object is a dictionary whose
    price is present and not equal to 0; it is null when the cash sub-object
    is absent, null or empty, when its price is absent, or when it is 0. *)
Theorem C1_cash_price_always_present (nd : list (pyval * pyval)) (r : pyval) :
  _format_price_node (PDict nd) = Ok r -> cash_field_spec nd r.
Proof.
  intro H. apply format_price_node_ok in H.
  destruct H as (nd' & cp & cap & nn & pt & Hnd & _ & Hcash & ->).
  injection Hnd as <-.
  exists [(PStr "credit", nn);
          (PStr "cash_price", if eq_zero cap then PNone else cap);
          (PStr "price", if eq_zero cp then PNone else cp);
          (PStr "last_updated", pt)], (if eq_zero cap then PNone else cap).
  split; [reflexivity|]. split; [reflexivity|]. split.
  - intros cd p Hc Hp Hz. rewrite Hc in Hcash. unfold py_or in Hcash.
    rewrite (truthy_found cd (PStr "price") p Hp), py_get_str, Hp in Hcash.
    injection Hcash as <-. rewrite Hz. reflexivity.
  - intros G. unfold py_or in Hcash.
    destruct (dict_find nd (PStr "cash")) as [x|] eqn:Ex.
    + destruct (truthy x) eqn:Tx.
      * destruct x as [| | | | | cd]; try (simpl in Hcash; discriminate).
        rewrite py_get_str in Hcash.
        destruct (dict_find cd (PStr "price")) as [p|] eqn:Ep;
          injection Hcash as <-.
        -- rewrite (G cd p eq_refl Ep). reflexivity.
        -- reflexivity.
      * simpl in Hcash. injection Hcash as <-. reflexivity.
    + simpl in Hcash. injection Hcash as <-. reflexivity.
Qed.

Lemma C1_witness :
  _format_price_node regular_node_cash =
    Ok (PDict [(PStr "credit", PStr "Flemmit");
               (PStr "cash_price", PNum (317 # 100));
               (PStr "price", PNum (327 # 100));
               (PStr "last_updated", PStr "2024-01-01T00:00:00Z")]) /\
  cash_field_spec
    [(PStr "fuelProduct", PStr "regular_gas");
     (PStr "credit", PDict [(PStr "nickname", PStr "Flemmit");
                            (PStr "postedTime", PStr "2024-01-01T00:00:00Z");
                            (PStr "price", PNum (327 # 100))]);
     (PStr "cash", PDict [(PStr "price", PNum (317 # 100))])]
    (PDict [(PStr "credit", PStr "Flemmit");
            (PStr "cash_price", PNum (317 # 100));
            (PStr "price", PNum (327 # 100));
            (PStr "last_updated", PStr "2024-01-01T00:00:00Z")]).
Proof.
  split; [reflexivity|]. apply C1_cash_price_always_present. reflexivity.
Defined.

(** C1 fails as stated: a price node without a [cash] sub-object still yields
    a record with a [cash_price] field (null), not a record without it. *)
Lemma C1_counterexample :
  _format_price_node regular_node_no_cash =
    Ok (PDict [(PStr "credit", PStr "Flemmit");
               (PStr "cash_price", PNone);
               (PStr "price", PNum (327 # 100));
               (PStr "last_updated", PStr "2024-01-01T00:00:00Z")]).
Proof. reflexivity. Qed.

(** ** C8 *)

(** C8: when the credit price of a price node is exactly 0, or the credit
    price key or the whole credit sub-object is absent or null, the
    normalized record's price field is null; and it is never the number 0. *)
Theorem C8_credit_price_null_never_zero (nd : list (pyval * pyval)) (r : pyval) :
  _format_price_node (PDict nd) = Ok r -> credit_field_spec nd r.
Proof.
  intro H. apply format_price_node_ok in H.
  destruct H as (nd' & cp & cap & nn & pt & Hnd & Hcredit & _ & ->).
  injection Hnd as <-.
  exists [(PStr "credit", nn);
          (PStr "cash_price", if eq_zero cap then PNone else cap);
          (PStr "price", if eq_zero cp then PNone else cp);
          (PStr "last_updated", pt)], (if eq_zero cp then PNone else cp).
  split; [reflexivity|]. split; [reflexivity|]. split; [apply eq_zero_guard|].
  unfold py_or in Hcredit.
  intros [Hc | [Hc | (cd & Hc & Hp)]]; rewrite Hc in Hcredit.
  - simpl in Hcredit. injection Hcredit as <-. reflexivity.
  - simpl in Hcredit. injection Hcredit as <-. reflexivity.
  - destruct (truthy (PDict cd)) eqn:Tc.
    + rewrite py_get_str in Hcredit.
      destruct Hp as [Hp | [Hp | (q & Hp & Hq)]]; rewrite Hp in Hcredit;
        injection Hcredit as <-.
      * reflexivity.
      * reflexivity.
      * simpl. apply Qeq_bool_iff in Hq. rewrite Hq. reflexivity.
    + simpl in Hcredit. injection Hcredit as <-. reflexivity.
Qed.

Lemma C8_witness :
  _format_price_node premium_node = Ok premium_record /\
  credit_field_spec [(PStr "fuelProduct", PStr "premium_gas"); (PStr "credit", PNone)]
                    premium_record.
Proof.
  split; [reflexivity|]. apply C8_credit_price_null_never_zero. reflexivity.
Defined.

(** ** C2 *)

Lemma mapM_length {A B : Type} (f : A -> res B) (l : list A) (out : list B) :
  mapM f l = Ok out -> length out = length l.
Proof.
  revert out; induction l as [|x xs IH]; simpl; intros out H.
  - injection H as <-. reflexivity.
  - rbind_ok_in H. rbind_ok_in H. injection H as <-. simpl. f_equal. auto.
Qed.

Definition station_entry (id : string) : pyval :=
  PDict [(PStr "id", PStr id); (PStr "priceUnit", PStr "dollars_per_gallon");
         (PStr "currency", PStr "USD"); (PStr "latitude", PNum 33);
         (PStr "longitude", PNum (-112)); (PStr "prices", PList [])].

Definition station_record (id : string) : pyval :=
  PDict [(PStr "station_id", PStr id);
         (PStr "unit_of_measure", PStr "dollars_per_gallon");
         (PStr "currency", PStr "USD"); (PStr "latitude", PNum 33);
         (PStr "longitude", PNum (-112))].

(** A search payload with the given stations and trends. *)
Definition search_payload (stations trends : list pyval) : pyval :=
  PDict [(PStr "data",
          PDict [(PStr "locationBySearchTerm",
                  PDict [(PStr "stations", PDict [(PStr "results", PList stations)]);
                         (PStr "trends", PList trends)])])].

Definition two_stations : list pyval := [station_entry "187725"; station_entry "205033"].

(** C2 (amended): when the payload's results are a list and normalization
    succeeds, [_parse_results] returns the normalizations, in upstream order,
    of the first [k] stations, where [k = min(limit, len(results))] for
    [limit >= 0] (no entry for [limit = 0]) and [k = max(0, len(results) +
    limit)] for a negative [limit] (Python slice semantics). *)
Theorem C2_parse_results_slice (response : pyval) (limit : Z)
    (rs out : list pyval) :
  getpath response results_path = Ok (PList rs) ->
  _parse_results response limit = Ok out ->
  mapM parse_station (firstn (slice_stop (Z.of_nat (length rs)) limit) rs) = Ok out /\
  Z.of_nat (length out) =
    (if (limit <? 0)%Z then Z.max 0 (Z.of_nat (length rs) + limit)
     else Z.min limit (Z.of_nat (length rs))).
Proof.
  intros Hrs H. unfold _parse_results in H. rewrite Hrs in H. simpl in H.
  split; [exact H|].
  apply mapM_length in H. rewrite H, length_firstn. unfold slice_stop.
  destruct (limit <? 0)%Z eqn:E.
  - apply Z.ltb_lt in E. lia.
  - apply Z.ltb_ge in E. lia.
Qed.

Lemma C2_witness :
  exists out,
    _parse_results (search_payload two_stations []) 5 = Ok out /\
    mapM parse_station (firstn (slice_stop (Z.of_nat (length two_stations)) 5)
                               two_stations) = Ok out /\
    Z.of_nat (length out) =
      (if (5 <? 0)%Z then Z.max 0 (Z.of_nat (length two_stations) + 5)
       else Z.min 5 (Z.of_nat (length two_stations))).
Proof.
  eexists. split; [vm_compute; reflexivity|].
  apply (C2_parse_results_slice (search_payload two_stations []) 5 two_stations);
    vm_compute; reflexivity.
Defined.

(** C2 fails as stated: a negative limit is a Python slice bound, so
    [limit = -1] over two results keeps the first one instead of none. *)
Lemma C2_counterexample :
  _parse_results (search_payload two_stations []) (-1) =
    Ok [station_record "187725"].
Proof. vm_compute. reflexivity. Qed.

(** ** Invariants of the client computations *)

Open Scope list_scope.

(** A result that is not [MissingSearchData]. *)
Definition not_msd {A : Type} (r : res A) : Prop :=
  match r with
  | Raise MissingSearchData => False
  | _ => True
  end.

(** A computation that leaves the network as it is, only appends to the
    trace and never raises [MissingSearchData]. *)
Definition tame {A : Type} (c : M A) : Prop :=
  forall w,
    w_net (snd (c w)) = w_net w /\
    (exists l, w_trace (snd (c w)) = w_trace w ++ l) /\
    not_msd (fst (c w)).

Create HintDb tame_db.

Lemma tame_ret {A : Type} (a : A) : tame (mret a).
Proof. intro w. split; [reflexivity|]. split; [exists []; rewrite app_nil_r; reflexivity|exact I]. Qed.

Lemma tame_bind {A B : Type} (c : M A) (k : A -> M B) :
  tame c -> (forall a, tame (k a)) -> tame (mbind c k).
Proof.
  intros Hc Hk w. unfold mbind.
  destruct (Hc w) as (Hn & (l & Ht) & Hm).
  destruct (c w) as [[a|e] w'] eqn:E; simpl in *.
  - destruct (Hk a w') as (Hn' & (l' & Ht') & Hm').
    split; [congruence|]. split; [|exact Hm'].
    exists (l ++ l'). rewrite Ht', Ht, app_assoc. reflexivity.
  - split; [exact Hn|]. split; [exists l; exact Ht | exact Hm].
Qed.

Lemma tame_raise {A : Type} (e : exc) : e <> MissingSearchData -> tame (@raise A e).
Proof.
  intros He w. split; [reflexivity|]. split; [exists []; rewrite app_nil_r; reflexivity|].
  simpl. destruct e; try exact I. apply He; reflexivity.
Qed.

Lemma tame_lift {A : Type} (r : res A) : not_msd r -> tame (lift r).
Proof. intros Hr w. split; [reflexivity|]. split; [exists []; rewrite app_nil_r; reflexivity|exact Hr]. Qed.

Lemma tame_attempt {A : Type} (c : M A) : tame c -> tame (attempt c).
Proof.
  intros Hc w. unfold attempt. destruct (Hc w) as (Hn & Ht & _).
  destruct (c w) as [r w']. simpl in *. auto.
Qed.

Lemma retry_loop_S {A : Type} (mt : option Q) (s : Q) (n : nat) (f : M A) (w : world) :
  retry_loop mt s (S (S n)) f w =
  match f w with
  | (Raise ClientError, w') =>
      if time_up mt (now w - s) then (Raise ClientError, w')
      else retry_loop mt s (S n) f w'
  | r => r
  end.
Proof. simpl. destruct (f w) as [[a|[]] w']; reflexivity. Qed.

Lemma tame_retry_loop {A : Type} (mt : option Q) (s : Q) (n : nat) (f : M A) :
  tame f -> tame (retry_loop mt s n f).
Proof.
  intros Hf. induction n as [|n IH]; [exact Hf|].
  destruct n as [|m]; [exact Hf|].
  intro w. rewrite retry_loop_S.
  pose proof (Hf w) as Hw. destruct (f w) as [r w'] eqn:E. simpl in Hw.
  destruct r as [a|[]]; try exact Hw.
  destruct (time_up mt (now w - s)); [exact Hw|].
  destruct Hw as (Hn & (l & Ht) & _).
  destruct (IH w') as (Hn' & (l' & Ht') & Hm').
  split; [congruence|]. split; [|exact Hm'].
  exists (l ++ l'). rewrite Ht', Ht, app_assoc. reflexivity.
Qed.

Lemma tame_on_client_error {A : Type} (mt : option Q) (n : nat) (f : M A) :
  tame f -> tame (on_client_error mt n f).
Proof. intros Hf w. apply (tame_retry_loop mt (now w) n f Hf w). Qed.

Lemma tame_get_client : tame get_client.
Proof. intro w. split; [reflexivity|]. split; [exists []; rewrite app_nil_r; reflexivity|exact I]. Qed.

Lemma tame_put_client (c : client) : tame (put_client c).
Proof. intro w. split; [reflexivity|]. split; [exists []; rewrite app_nil_r; reflexivity|exact I]. Qed.

Lemma tame_emit (e : event) : tame (emit e).
Proof. intro w. split; [reflexivity|]. split; [exists [e]; reflexivity|exact I]. Qed.

Lemma tame_next_reply : tame next_reply.
Proof. intro w. split; [reflexivity|]. split; [exists []; rewrite app_nil_r; reflexivity|exact I]. Qed.

Lemma tame_get_fs : tame get_fs.
Proof. intro w. split; [reflexivity|]. split; [exists []; rewrite app_nil_r; reflexivity|exact I]. Qed.

Lemma tame_put_fs (fs : list (string * file)) : tame (put_fs fs).
Proof. intro w. split; [reflexivity|]. split; [exists []; rewrite app_nil_r; reflexivity|exact I]. Qed.

#[local] Hint Resolve tame_ret tame_attempt tame_on_client_error tame_get_client
  tame_put_client tame_emit tame_next_reply tame_get_fs tame_put_fs : tame_db.

(** Decompose a computation into the primitives above. *)
Ltac tame_steps :=
  repeat match goal with
  | |- tame (mbind _ _) => apply tame_bind; [|intro]
  | |- tame (raise _) => apply tame_raise; discriminate
  | |- tame (match ?x with _ => _ end) => destruct x
  | |- tame (if ?b then _ else _) => destruct b
  | |- _ => solve [eauto with tame_db]
  end.

Lemma tame_set_tag (t : pyval) : tame (set_tag t).
Proof. unfold set_tag. tame_steps. Qed.

Lemma tame_set_cf_last (b : option bool) : tame (set_cf_last b).
Proof. unfold set_cf_last. tame_steps. Qed.

Lemma tame_set_cache_manager (m : option string) : tame (set_cache_manager m).
Proof. unfold set_cache_manager. tame_steps. Qed.

Lemma tame_cache_exists (p : string) : tame (cache_exists p).
Proof. unfold cache_exists. tame_steps. Qed.

Lemma tame_read_cache (p : string) : tame (read_cache p).
Proof. unfold read_cache. tame_steps. Qed.

Lemma tame_write_cache (p : string) (f : file) : tame (write_cache p f).
Proof. unfold write_cache. tame_steps. Qed.

Lemma tame_cache_clear (p : string) : tame (cache_clear p).
Proof. unfold cache_clear. pose proof tame_cache_exists. tame_steps. Qed.

#[local] Hint Resolve tame_set_tag tame_set_cf_last tame_set_cache_manager
  tame_cache_exists tame_read_cache tame_write_cache tame_cache_clear : tame_db.

(** The pure helpers never raise [MissingSearchData]. *)

Lemma rbind_not_msd {A B : Type} (c : res A) (k : A -> res B) :
  not_msd c -> (forall a, not_msd (k a)) -> not_msd (rbind c k).
Proof. destruct c as [a|e]; simpl; auto. Qed.

Ltac case_not_msd :=
  repeat match goal with
  | |- not_msd (match ?x with _ => _ end) => destruct x
  | |- not_msd (if ?x then _ else _) => destruct x
  end; exact I.

Lemma getitem_not_msd (v k : pyval) : not_msd (getitem v k).
Proof. unfold getitem, seq_index. case_not_msd. Qed.

Lemma py_get_not_msd (v k d : pyval) : not_msd (py_get v k d).
Proof. unfold py_get. case_not_msd. Qed.

Lemma in_keys_not_msd (k v : pyval) : not_msd (in_keys k v).
Proof. unfold in_keys. case_not_msd. Qed.

Lemma py_iter_not_msd (v : pyval) : not_msd (py_iter v).
Proof. unfold py_iter. case_not_msd. Qed.

Lemma py_len_not_msd (v : pyval) : not_msd (py_len v).
Proof. unfold py_len. case_not_msd. Qed.

Lemma slice_upto_not_msd (v : pyval) (n : Z) : not_msd (slice_upto v n).
Proof. unfold slice_upto. case_not_msd. Qed.

Lemma setitem_not_msd (d : list (pyval * pyval)) (k v : pyval) :
  not_msd (setitem d k v).
Proof. unfold setitem. case_not_msd. Qed.

Lemma ok_not_msd {A : Type} (a : A) : not_msd (Ok a).
Proof. exact I. Qed.

Lemma mapM_not_msd {A B : Type} (f : A -> res B) (l : list A) :
  (forall x, not_msd (f x)) -> not_msd (mapM f l).
Proof.
  intro Hf. induction l as [|x xs IH]; simpl; [exact I|].
  apply rbind_not_msd; [apply Hf|]. intro.
  apply rbind_not_msd; [exact IH|]. intro. exact I.
Qed.

Lemma getpath_not_msd (v : pyval) (ks : list string) : not_msd (getpath v ks).
Proof.
  unfold getpath. generalize (Ok v : res pyval) (I : not_msd (Ok v)).
  induction ks as [|k ks IH]; intros acc Hacc; simpl; [exact Hacc|].
  apply IH. apply rbind_not_msd; [exact Hacc|]. intro. apply getitem_not_msd.
Qed.

#[local] Hint Resolve rbind_not_msd getitem_not_msd py_get_not_msd in_keys_not_msd
  py_iter_not_msd py_len_not_msd slice_upto_not_msd setitem_not_msd ok_not_msd
  mapM_not_msd getpath_not_msd : tame_db.

Ltac not_msd_steps :=
  repeat match goal with
  | |- not_msd (rbind _ _) => apply rbind_not_msd; [|intro]
  | |- not_msd (if ?b then _ else _) => destruct b
  | |- _ => solve [eauto with tame_db]
  end.

Lemma format_price_node_not_msd (v : pyval) : not_msd (_format_price_node v).
Proof. unfold _format_price_node. not_msd_steps. Qed.

Lemma add_prices_not_msd (d : list (pyval * pyval)) (ps : list pyval) :
  not_msd (add_prices d ps).
Proof.
  revert d. induction ps as [|p ps IH]; intro d; simpl; [exact I|].
  pose proof format_price_node_not_msd. not_msd_steps.
Qed.

Lemma parse_station_not_msd (v : pyval) : not_msd (parse_station v).
Proof. unfold parse_station. pose proof add_prices_not_msd. not_msd_steps. Qed.

Lemma parse_results_not_msd (v : pyval) (n : Z) : not_msd (_parse_results v n).
Proof. unfold _parse_results. pose proof parse_station_not_msd. not_msd_steps. Qed.

Lemma parse_trend_not_msd (v : pyval) : not_msd (parse_trend v).
Proof. unfold parse_trend. not_msd_steps. Qed.

Lemma parse_trends_not_msd (v : pyval) : not_msd (_parse_trends v).
Proof. unfold _parse_trends. pose proof parse_trend_not_msd. not_msd_steps. Qed.

Lemma normalize_station_not_msd (v : pyval) : not_msd (normalize_station v).
Proof. unfold normalize_station. pose proof add_prices_not_msd. not_msd_steps. Qed.

Lemma lookup_errors_message_not_msd (v : pyval) :
  not_msd (lookup_errors_message v).
Proof.
  unfold lookup_errors_message. apply rbind_not_msd; [apply getitem_not_msd|].
  intro errs. pose proof (getitem_not_msd errs (PStr "message")) as H1.
  destruct (getitem errs (PStr "message")) as [m|e]; [exact I|].
  assert (H2 : not_msd (e0 <- getitem errs (PNum 0) ;; getitem e0 (PStr "message")))
    by not_msd_steps.
  destruct e; try exact H1;
    destruct (e0 <- getitem errs (PNum 0) ;; getitem e0 (PStr "message"))
      as [m|[]]; exact I || exact H2.
Qed.

Lemma service_errors_message_not_msd (v : pyval) :
  not_msd (service_errors_message v).
Proof. unfold service_errors_message. not_msd_steps. Qed.

#[local] Hint Resolve format_price_node_not_msd add_prices_not_msd
  parse_results_not_msd parse_trends_not_msd normalize_station_not_msd
  lookup_errors_message_not_msd service_errors_message_not_msd : tame_db.

Lemma tame_lift_auto {A : Type} (r : res A) : not_msd r -> tame (lift r).
Proof. apply tame_lift. Qed.
#[local] Hint Resolve tame_lift_auto : tame_db.

Lemma tame_fetch_token (solver : option string) (mgr : string) :
  tame (fetch_token solver mgr).
Proof. unfold fetch_token. tame_steps. Qed.
#[local] Hint Resolve tame_fetch_token : tame_db.

Lemma tame_get_headers_once : tame _get_headers_once.
Proof. unfold _get_headers_once. tame_steps. Qed.

Lemma tame_get_headers : tame _get_headers.
Proof. unfold _get_headers. apply tame_on_client_error, tame_get_headers_once. Qed.
#[local] Hint Resolve tame_get_headers : tame_db.

(** Binding the outcome of [attempt c]: the continuation only ever sees the
    outcomes [c] can produce. *)
Lemma tame_bind_attempt {A B : Type} (c : M A) (k : res A -> M B) :
  tame c -> (forall r, not_msd r -> tame (k r)) -> tame (mbind (attempt c) k).
Proof.
  intros Hc Hk w. unfold mbind, attempt.
  destruct (Hc w) as (Hn & (l & Ht) & Hm).
  destruct (c w) as [r w'] eqn:E; simpl in *.
  destruct (Hk r Hm w') as (Hn' & (l' & Ht') & Hm').
  split; [congruence|]. split; [|exact Hm'].
  exists (l ++ l'). rewrite Ht', Ht, app_assoc. reflexivity.
Qed.

Lemma tame_process_request_once (q : pyval) : tame (process_request_once q).
Proof.
  unfold process_request_once. apply tame_bind_attempt; [apply tame_get_headers|].
  intros r Hr. destruct r as [a|[]]; try contradiction; tame_steps.
Qed.

Lemma tame_process_request (q : pyval) : tame (process_request q).
Proof. unfold process_request. apply tame_on_client_error, tame_process_request_once. Qed.
#[local] Hint Resolve tame_process_request : tame_db.

Lemma tame_price_lookup : tame price_lookup.
Proof. unfold price_lookup. tame_steps. Qed.

Lemma tame_service_result (limit : Z) (response : pyval) :
  tame (service_result limit response).
Proof. unfold service_result. tame_steps. Qed.
#[local] Hint Resolve tame_service_result : tame_db.

Lemma tame_price_lookup_service (lat lon : option Q) (zipcode : option Z) (limit : Z) :
  tame (price_lookup_service lat lon zipcode limit).
Proof. unfold price_lookup_service. tame_steps. Qed.

Lemma tame_clear_cache : tame clear_cache.
Proof. unfold clear_cache. tame_steps. Qed.

(** ** Traces *)

Lemma in_trace_mono {A : Type} (c : M A) (w : world) (e : event) :
  tame c -> In e (w_trace w) -> In e (w_trace (snd (c w))).
Proof.
  intros Hc Hin. destruct (Hc w) as (_ & (l & ->) & _).
  apply in_or_app. left. exact Hin.
Qed.

Lemma in_mbind_first {A B : Type} (c : M A) (k : A -> M B) (w : world) (e : event) :
  (forall a, tame (k a)) ->
  In e (w_trace (snd (c w))) -> In e (w_trace (snd (mbind c k w))).
Proof.
  intros Hk Hin. unfold mbind. destruct (c w) as [[a|ex] w'] eqn:E; simpl in *.
  - apply in_trace_mono; auto.
  - exact Hin.
Qed.

Lemma mbind_attempt {A B : Type} (c : M A) (k : res A -> M B) (w : world) :
  mbind (attempt c) k w = k (fst (c w)) (snd (c w)).
Proof. unfold mbind, attempt. destruct (c w); reflexivity. Qed.

Lemma in_on_client_error_first {A : Type} (mt : option Q) (n : nat) (f : M A)
    (w : world) (e : event) :
  tame f -> In e (w_trace (snd (f w))) ->
  In e (w_trace (snd (on_client_error mt n f w))).
Proof.
  intros Hf Hin. unfold on_client_error. destruct n as [|[|m]]; try exact Hin.
  rewrite retry_loop_S. destruct (f w) as [r w'] eqn:E.
  destruct r as [a|[]]; try exact Hin.
  destruct (time_up mt (now w - now w)); [exact Hin|].
  apply in_trace_mono; [apply tame_retry_loop, Hf | exact Hin].
Qed.

(** Whatever the token step logged is in the trace of the request. *)
Lemma in_process_request_headers (q : pyval) (w : world) (e : event) :
  In e (w_trace (snd (_get_headers w))) ->
  In e (w_trace (snd (process_request q w))).
Proof.
  intro Hin. unfold process_request.
  apply in_on_client_error_first; [apply tame_process_request_once|].
  unfold process_request_once. rewrite mbind_attempt.
  destruct (fst (_get_headers w)) as [a|[]]; try exact Hin.
  apply in_trace_mono; [tame_steps | exact Hin].
Qed.

Lemma fs_find_remove (fs : list (string * file)) (p : string) :
  fs_find (fs_remove fs p) p = None.
Proof.
  induction fs as [|[p' f] fs IH]; simpl; [reflexivity|].
  destruct (String.eqb p' p) eqn:E; simpl; [exact IH|].
  rewrite E. exact IH.
Qed.

(** A file that reads as text without an uncaught error of [read_cache]. *)
Definition readable (f : file) : bool :=
  match fjson f with
  | NotText | LoadsValueError => false
  | Loaded _ | NotJSON => true
  end.

(** Every file on disk is [readable]. *)
Definition fs_readable (fs : list (string * file)) : Prop :=
  forall p f, fs_find fs p = Some f -> readable f = true.

Lemma fs_readable_all (fs : list (string * file)) :
  forallb (fun e => readable (snd e)) fs = true -> fs_readable fs.
Proof.
  induction fs as [|[p' f'] rest IH]; intros H p f E; [discriminate|].
  cbn [forallb snd] in H. apply andb_true_iff in H as [H1 H2].
  cbn [fs_find] in E.
  destruct (String.eqb p' p); [injection E as <-; exact H1 | exact (IH H2 p f E)].
Qed.

(** No token file of more than 30 bytes at [p]. *)
Definition no_cached_token (fs : list (string * file)) (p : string) : Prop :=
  forall f, fs_find fs p = Some f -> (String.length (ftext f) <= 30)%nat.

(** [GasBuddyCache.clear_cache] leaves no cached token behind and does not
    touch the client. *)
Lemma cache_clear_effect (p : string) (w : world) :
  w_client (snd (cache_clear p w)) = w_client w /\
  no_cached_token (w_fs (snd (cache_clear p w))) p.
Proof.
  destruct w as [c fs net sent tr]. unfold cache_clear, cache_exists.
  cbv [mbind emit get_fs mret put_fs]. simpl.
  destruct (fs_find fs p) as [f|] eqn:E; simpl.
  - destruct (30 <? String.length (ftext f))%nat eqn:L; simpl.
    + split; [reflexivity|]. intros f'. rewrite fs_find_remove. discriminate.
    + split; [reflexivity|]. intros f'. rewrite E. intros [= <-].
      apply Nat.ltb_ge. exact L.
  - split; [reflexivity|]. intros f'. rewrite E. discriminate.
Qed.

(** The event of a token acquisition by client [c]. *)
Definition fetch_event (c : client) : event :=
  let '(url, method, json_data) := token_request c in EvFetch method url json_data.

Lemma token_request_same (c c' : client) :
  _solver c = _solver c' -> _timeout c = _timeout c' -> token_request c = token_request c'.
Proof. unfold token_request. intros -> ->. reflexivity. Qed.

Ltac same_token_request :=
  unfold fetch_event;
  repeat match goal with
  | |- context [token_request ?c1] =>
      match goal with
      | |- context [token_request ?c2] =>
          assert_fails (constr_eq c1 c2);
          rewrite (token_request_same c1 c2 eq_refl eq_refl)
      end
  end;
  match goal with |- context [token_request ?c] => destruct (token_request c) as [[?u ?me] ?jd] end.

Lemma mbind_get_client {B : Type} (k : client -> M B) (w : world) :
  mbind get_client k w = k (w_client w) w.
Proof. reflexivity. Qed.

(** ** Concrete worlds *)

Definition demo_token : string := "1.+Qw4hH/vdM0Kvscg".

(** A landing page carrying the token. *)
Definition landing_page : string :=
  ("<html><script>window.gbcsrf = " ++ dq ++ demo_token ++ dq ++ ";</script></html>")%string.

(** A [GetStation] answer. *)
Definition station_payload : pyval :=
  PDict [(PStr "data",
    PDict [(PStr "station",
      PDict [(PStr "id", PStr "205033"); (PStr "priceUnit", PStr "dollars_per_gallon");
             (PStr "currency", PStr "USD"); (PStr "latitude", PNum 33);
             (PStr "longitude", PNum (-112));
             (PStr "brands", PList [PDict [(PStr "imageUrl", PStr "https://images.example/b.png")]]);
             (PStr "prices", PList [regular_node_cash; premium_node])])])].

(** The network answers the listed replies in turn, then connection errors. *)
Definition replies (rs : list reply) (n : nat) : reply := nth n rs ConnError.

(** A clock that does not move: every step happens at time 0. *)
Definition frozen_clock : nat -> Q := fun _ => 0%Q.

(** A new client for station 205033, with the given cache file argument, file
    system and network. *)
Definition demo_world (cache_file : string) (fs : list (string * file))
    (rs : list reply) : world :=
  mkWorld (new_client (Some 205033%Z) None cache_file 60000) fs (replies rs) 0 [] frozen_clock.

(** ** C10 *)

Lemma search_variables_missing (lat lon : option Q) :
  (lat = None \/ lon = None) -> search_variables lat lon None = None.
Proof. intros [-> | ->]; [reflexivity | destruct lat; reflexivity]. Qed.

(** C10: without a coordinate pair and without a zip code,
    [price_lookup_service] does no local validation and raises no
    [MissingSearchData]: it sends the GraphQL request with an empty
    [variables] mapping and handles the response, while [location_search]
    raises [MissingSearchData] at once in the same situation. *)
Theorem C10_service_no_search_validation (lat lon : option Q) (limit : Z) (w : world) :
  (lat = None \/ lon = None) ->
  price_lookup_service lat lon None limit w =
    mbind (process_request
             (graphql_query "LocationBySearchTerm" LOCATION_QUERY_PRICES (PDict [])))
          (service_result limit) w /\
  not_msd (fst (price_lookup_service lat lon None limit w)) /\
  location_search lat lon None w = (Raise MissingSearchData, w).
Proof.
  intro H. pose proof (search_variables_missing lat lon H) as Hv.
  split; [|split].
  - unfold price_lookup_service, service_query. rewrite Hv. reflexivity.
  - apply (tame_price_lookup_service lat lon None limit w).
  - unfold location_search. rewrite Hv. reflexivity.
Qed.

Lemma C10_witness :
  price_lookup_service (Some 33%Q) None None 5
      (demo_world "" [] [Response 200 landing_page None]) =
    mbind (process_request
             (graphql_query "LocationBySearchTerm" LOCATION_QUERY_PRICES (PDict [])))
          (service_result 5) (demo_world "" [] [Response 200 landing_page None]) /\
  not_msd (fst (price_lookup_service (Some 33%Q) None None 5
                  (demo_world "" [] [Response 200 landing_page None]))) /\
  location_search (Some 33%Q) None None (demo_world "" [] [Response 200 landing_page None]) =
    (Raise MissingSearchData, demo_world "" [] [Response 200 landing_page None]).
Proof. apply C10_service_no_search_validation. right. reflexivity. Defined.

(** With the default cache location and no token file there, the token step
    sends the token request. *)
Lemma get_headers_once_fetches (w : world) :
  _cache_file (w_client w) = "" -> no_cached_token (w_fs w) DEFAULT_CACHE ->
  In (fetch_event (w_client w)) (w_trace (snd (_get_headers_once w))).
Proof.
  destruct w as [[id solver tag cf cfile mgr tmo] fs net sent tr].
  simpl. intros -> Hfs. unfold _get_headers_once, cache_exists.
  cbv [mbind]. cbn -[fetch_token token_request Nat.ltb].
  destruct (fs_find fs DEFAULT_CACHE) as [f|] eqn:E;
    [rewrite (proj2 (Nat.ltb_ge _ _) (Hfs f E))|];
    cbn -[fetch_token token_request Nat.ltb];
    unfold fetch_event; destruct (token_request _) as [[url method] jd];
    (apply in_trace_mono; [apply tame_fetch_token|]);
    apply in_or_app; right; left; reflexivity.
Qed.

(** ** C6 *)

Lemma clear_cache_manager (w : world) (p : string) :
  _cache_manager (w_client w) = Some p -> clear_cache w = cache_clear p w.
Proof. intro H. unfold clear_cache. rewrite mbind_get_client, H. reflexivity. Qed.

Lemma process_request_fetches (q : pyval) (w : world) :
  _cache_file (w_client w) = "" -> no_cached_token (w_fs w) DEFAULT_CACHE ->
  In (fetch_event (w_client w)) (w_trace (snd (process_request q w))).
Proof.
  intros Hf Hfs. apply in_process_request_headers. unfold _get_headers.
  apply in_on_client_error_first; [apply tame_get_headers_once|].
  apply get_headers_once_fetches; assumption.
Qed.

(** C6, as the code behaves: before any operation has run there is no cache
    manager and [clear_cache] does nothing at all (so a token file left on
    disk is used by the next operation); once a cache manager exists at the
    default location, [clear_cache] removes the token file and the next
    operation ([process_request] and the public operations built on it)
    sends a token request. *)
Theorem C6_clear_cache_then_fetch (w : world) :
  (_cache_manager (w_client w) = None -> clear_cache w = (Ok tt, w)) /\
  (_cache_file (w_client w) = "" -> _cache_manager (w_client w) = Some DEFAULT_CACHE ->
   (forall q, In (fetch_event (w_client w))
                 (w_trace (snd (process_request q (snd (clear_cache w)))))) /\
   In (fetch_event (w_client w)) (w_trace (snd (price_lookup (snd (clear_cache w))))) /\
   (forall lat lon zipcode limit,
      In (fetch_event (w_client w))
         (w_trace (snd (price_lookup_service lat lon zipcode limit (snd (clear_cache w)))))) /\
   (forall lat lon zipcode, search_variables lat lon zipcode <> None ->
      In (fetch_event (w_client w))
         (w_trace (snd (location_search lat lon zipcode (snd (clear_cache w))))))).
Proof.
  split.
  - intro H. unfold clear_cache. rewrite mbind_get_client, H. reflexivity.
  - intros Hf Hm. rewrite (clear_cache_manager w DEFAULT_CACHE Hm).
    destruct (cache_clear_effect DEFAULT_CACHE w) as [Hc Hfs].
    set (w1 := snd (cache_clear DEFAULT_CACHE w)) in *.
    assert (Hf1 : _cache_file (w_client w1) = "") by (rewrite Hc; exact Hf).
    assert (Key : forall q, In (fetch_event (w_client w))
                               (w_trace (snd (process_request q w1)))).
    { intro q. rewrite <- Hc. apply process_request_fetches; assumption. }
    split; [exact Key|]. split; [|split].
    + unfold price_lookup. rewrite mbind_get_client.
      apply in_mbind_first; [intro; tame_steps | apply Key].
    + intros lat lon zipcode limit. unfold price_lookup_service.
      apply in_mbind_first; [intro; apply tame_service_result | apply Key].
    + intros lat lon zipcode Hv. unfold location_search.
      destruct (search_variables lat lon zipcode); [apply Key | contradiction].
Qed.

(** A client on the default cache location that has already run an
    operation. *)
Definition used_client : client :=
  mkClient (Some 205033%Z) None (PStr demo_token) (Some true) "" (Some DEFAULT_CACHE) 60000.

Definition cached_token_fs : list (string * file) :=
  [(DEFAULT_CACHE, token_file demo_token)].

Lemma C6_witness :
  (_cache_manager (w_client (mkWorld used_client cached_token_fs
                               (replies [Response 200 landing_page None]) 0 [] frozen_clock)) = None ->
   clear_cache (mkWorld used_client cached_token_fs
                  (replies [Response 200 landing_page None]) 0 [] frozen_clock) =
   (Ok tt, mkWorld used_client cached_token_fs
             (replies [Response 200 landing_page None]) 0 [] frozen_clock)) /\
  In (fetch_event used_client)
     (w_trace (snd (price_lookup
        (snd (clear_cache (mkWorld used_client cached_token_fs
                             (replies [Response 200 landing_page None]) 0 [] frozen_clock)))))).
Proof.
  destruct (C6_clear_cache_then_fetch
              (mkWorld used_client cached_token_fs
                 (replies [Response 200 landing_page None]) 0 [] frozen_clock)) as [H1 H2].
  split; [exact H1|].
  destruct (H2 eq_refl eq_refl) as (_ & H & _). exact H.
Defined.

(** A fresh client, with a token file left on disk by an earlier run:
    [clear_cache] then [price_lookup] reads the file and posts the query with
    that token; no token request is sent. *)
Lemma C6_counterexample :
  w_trace (snd (price_lookup
     (snd (clear_cache (demo_world "" cached_token_fs
                          [Response 200 "{}" (Some station_payload)]))))) =
  [EvIsFile DEFAULT_CACHE; EvRead DEFAULT_CACHE;
   EvPost BASE_URL (PStr demo_token) (price_query (Some 205033%Z))] /\
  ~ In (fetch_event (new_client (Some 205033%Z) None "" 60000))
       (w_trace (snd (price_lookup
          (snd (clear_cache (demo_world "" cached_token_fs
                               [Response 200 "{}" (Some station_payload)])))))).
Proof.
  split; [vm_compute; reflexivity|].
  vm_compute. intros [H|[H|[H|[]]]]; discriminate.
Qed.

(** ** C9 *)

Lemma on_client_error_not_client {A : Type} (mt : option Q) (n : nat) (f : M A)
    (w : world) :
  fst (f w) <> Raise ClientError -> on_client_error mt n f w = f w.
Proof.
  intro H. unfold on_client_error. destruct n as [|[|m]]; try reflexivity.
  rewrite retry_loop_S. destruct (f w) as [[a|[]] w'] eqn:E; try reflexivity.
  simpl in H. contradiction.
Qed.

(** The request once the token step has succeeded and left the state [w1]. *)
Lemma process_request_once_after_headers (q : pyval) (w w1 : world) (u : unit) :
  _get_headers w = (Ok u, w1) ->
  fst (process_request_once q w) =
  match w_net w1 (w_sent w1) with
  | Timeout => Ok (error_result (PStr ERROR_TIMEOUT))
  | ContentTypeErr => Ok (error_result (PStr "ContentTypeError"))
  | ConnError => Raise ClientError
  | Response status text decoded =>
      let message := match decoded with
                     | Some v => v
                     | None => error_result (PStr text)
                     end in
      if (status =? 403)%Z then Ok message
      else if negb (status =? 200)%Z then Ok (error_result message)
      else Ok message
  end.
Proof.
  intro H. unfold process_request_once. rewrite mbind_attempt, H.
  destruct w1 as [c fs net sent tr]. simpl.
  cbv [mbind get_client emit next_reply mret raise set_cf_last put_client]; simpl.
  destruct (net sent) as [st txt dec| | |]; simpl; try reflexivity.
  destruct dec as [v|]; simpl;
    destruct (st =? 403)%Z; simpl; try reflexivity;
    destruct (negb (st =? 200)%Z); reflexivity.
Qed.

(** With the default cache location and no token file there, the token
    step marks the token stale, logs the token request and reads its
    answer. *)
Lemma get_headers_once_no_cache (c : client) (fs : list (string * file))
    (net : nat -> reply) (sent : nat) (tr : list event) (clk : nat -> Q) :
  _cache_file c = "" -> no_cached_token fs DEFAULT_CACHE ->
  _get_headers_once (mkWorld c fs net sent tr clk) =
  fetch_token (_solver c) DEFAULT_CACHE
    (mkWorld (mkClient (_id c) (_solver c) (_tag c) (Some false) "" (Some DEFAULT_CACHE)
                       (_timeout c))
             fs net sent ((tr ++ [EvIsFile DEFAULT_CACHE]) ++ [fetch_event c]) clk).
Proof.
  destruct c as [id solver tag cf cfile mgr tmo]. simpl. intros -> Hfs.
  unfold _get_headers_once, cache_exists.
  cbv [mbind]. cbn -[fetch_token token_request Nat.ltb].
  destruct (fs_find fs DEFAULT_CACHE) as [f|] eqn:E;
    [rewrite (proj2 (Nat.ltb_ge _ _) (Hfs f E))|];
    cbn -[fetch_token token_request Nat.ltb]; unfold fetch_event, token_request;
    cbn -[fetch_token]; destruct solver as [sv|]; try destruct (String.eqb sv "");
    reflexivity.
Qed.

(** With a token file of more than 30 bytes at the default location and a
    token not known to be stale, the token step reads the token and sends
    nothing. *)
Lemma get_headers_once_cached (w : world) (f : file) (d : list (pyval * pyval)) (tv : pyval) :
  _cache_file (w_client w) = "" -> _cf_last (w_client w) <> Some false ->
  fs_find (w_fs w) DEFAULT_CACHE = Some f -> (30 < String.length (ftext f))%nat ->
  fjson f = Loaded (PDict d) -> dict_find d (PStr TOKEN) = Some tv ->
  _get_headers_once w =
    (Ok tt,
     mkWorld (mkClient (_id (w_client w)) (_solver (w_client w)) tv (_cf_last (w_client w)) ""
                       (Some DEFAULT_CACHE) (_timeout (w_client w)))
             (w_fs w) (w_net w) (w_sent w)
             ((w_trace w ++ [EvIsFile DEFAULT_CACHE]) ++ [EvRead DEFAULT_CACHE]) (w_clock w)).
Proof.
  destruct w as [[id solver tag cf cfile mgr tmo] fs net sent tr]. simpl.
  intros -> Hcf E L J D.
  unfold _get_headers_once, cache_exists, read_cache, set_tag.
  cbv [mbind set_cache_manager get_client put_client emit get_fs mret].
  cbn -[token_request Nat.ltb dict_find fs_find].
  rewrite E. cbn -[token_request Nat.ltb dict_find fs_find].
  rewrite (proj2 (Nat.ltb_lt _ _) L). cbn -[token_request Nat.ltb dict_find fs_find].
  rewrite E, J. cbn -[token_request Nat.ltb dict_find fs_find]. rewrite D.
  cbn -[token_request]. destruct (token_request _) as [[u me] jd].
  destruct cf as [[|]|]; [reflexivity | contradiction | reflexivity].
Qed.

(** A connection that is down from now on: every further request fails at
    the connection level. *)
Definition all_conn_errors (w : world) : Prop :=
  forall k, (w_sent w <= k)%nat -> w_net w k = ConnError.

(** Less than [t] seconds elapse from now on, however many further requests
    are sent. *)
Definition clock_under (t : Q) (w : world) : Prop :=
  forall j, (w_clock w (w_sent w + j) - now w < t)%Q.

(** Every attempt of [f] from a world in [P] fails alike: it raises
    [ClientError], sends [k] requests, logs [l], leaves the clock as it is
    and ends in [P]. *)
Definition fails_alike {A : Type} (f : M A) (P : world -> Prop) (k : nat) (l : list event)
  : Prop :=
  forall w, P w ->
    fst (f w) = Raise ClientError /\ P (snd (f w)) /\
    w_sent (snd (f w)) = (w_sent w + k)%nat /\
    w_trace (snd (f w)) = w_trace w ++ l /\
    w_clock (snd (f w)) = w_clock w.

(** The backoff gives up: it makes [a] attempts, at least one and at most
    [tries], and raises the last [ClientError]; it makes all [tries] when
    the time limit is never reached. *)
Lemma retry_loop_gives_up {A : Type} (mt : option Q) (s : Q) (f : M A)
    (P : world -> Prop) (k : nat) (l : list event) :
  fails_alike f P k l ->
  forall n w, P w ->
  exists a, (1 <= a <= Nat.max 1 n)%nat /\
    fst (retry_loop mt s n f w) = Raise ClientError /\
    P (snd (retry_loop mt s n f w)) /\
    w_sent (snd (retry_loop mt s n f w)) = (w_sent w + a * k)%nat /\
    w_trace (snd (retry_loop mt s n f w)) = w_trace w ++ concat (repeat l a) /\
    w_clock (snd (retry_loop mt s n f w)) = w_clock w /\
    ((forall t, mt = Some t -> forall j, (w_clock w (w_sent w + j) - s < t)%Q) ->
     a = Nat.max 1 n).
Proof.
  intros Hf n. induction n as [|[|m] IH]; intros w Hw.
  - destruct (Hf w Hw) as (H1 & H2 & H3 & H4 & H5). exists 1%nat. cbn [retry_loop].
    rewrite H3, H4. cbn [repeat concat]. rewrite app_nil_r.
    repeat split; try assumption; try lia.
  - destruct (Hf w Hw) as (H1 & H2 & H3 & H4 & H5). exists 1%nat. cbn [retry_loop].
    rewrite H3, H4. cbn [repeat concat]. rewrite app_nil_r.
    repeat split; try assumption; try lia.
  - rewrite retry_loop_S. destruct (Hf w Hw) as (H1 & H2 & H3 & H4 & H5).
    destruct (f w) as [r w'] eqn:E. cbn [fst snd] in H1, H2, H3, H4, H5. subst r.
    destruct (time_up mt (now w - s)) eqn:T.
    + exists 1%nat. cbn [fst snd repeat concat]. rewrite app_nil_r.
      repeat split; try assumption; try lia.
      intro Ht. exfalso. destruct mt as [t|]; [|discriminate T].
      cbn [time_up] in T. apply Qle_bool_iff in T.
      specialize (Ht t eq_refl 0%nat). rewrite Nat.add_0_r in Ht.
      exact (Qlt_not_le _ _ Ht T).
    + destruct (IH w' H2) as (a & Ha & I1 & I2 & I3 & I4 & I5 & I6).
      exists (S a). rewrite I3, H3, I4, H4, I5, H5. cbn [repeat concat].
      repeat split; try assumption; try lia.
      * rewrite app_assoc. reflexivity.
      * intro Ht. enough (a = Nat.max 1 (S m)) by lia. apply I6.
        rewrite H5, H3. intros t Hm j. rewrite <- Nat.add_assoc. exact (Ht t Hm _).
Qed.

(** A client on the default cache location with a cached token in use,
    whose POSTs fail at the connection level. *)
Definition post_conn_down (f : file) (d : list (pyval * pyval)) (tv : pyval) (w : world)
  : Prop :=
  _cache_file (w_client w) = "" /\ _cf_last (w_client w) <> Some false /\
  fs_find (w_fs w) DEFAULT_CACHE = Some f /\ (30 < String.length (ftext f))%nat /\
  fjson f = Loaded (PDict d) /\ dict_find d (PStr TOKEN) = Some tv /\ all_conn_errors w.

Lemma post_conn_down_fails (q : pyval) (f : file) (d : list (pyval * pyval)) (tv : pyval) :
  fails_alike (process_request_once q) (post_conn_down f d tv) 1
    [EvIsFile DEFAULT_CACHE; EvRead DEFAULT_CACHE; EvPost BASE_URL tv q].
Proof.
  intros w (Hf & Hcf & E & L & J & D & Hn).
  pose proof (get_headers_once_cached w f d tv Hf Hcf E L J D) as H1.
  assert (H : _get_headers w = _get_headers_once w).
  { unfold _get_headers. apply on_client_error_not_client. rewrite H1. discriminate. }
  unfold process_request_once. rewrite mbind_attempt, H, H1. cbn [fst snd].
  destruct w as [c fs net sent tr clk]. unfold all_conn_errors in Hn. cbn in *.
  cbv [mbind get_client emit next_reply raise]. cbn.
  rewrite (Hn sent (le_n sent)). cbn.
  split; [reflexivity|]. split; [|split; [lia|split; [|reflexivity]]].
  - repeat split; cbn; try assumption.
    intros k Hk. apply Hn. cbn in Hk. lia.
  - rewrite <- !app_assoc. reflexivity.
Qed.

(** A client on the default cache location with no token file there, whose
    requests fail at the connection level; [c0] fixes the solver and the
    timeout the token request is built from. *)
Definition token_conn_down (c0 : client) (w : world) : Prop :=
  _cache_file (w_client w) = "" /\ _solver (w_client w) = _solver c0 /\
  _timeout (w_client w) = _timeout c0 /\ no_cached_token (w_fs w) DEFAULT_CACHE /\
  all_conn_errors w.

Lemma token_conn_down_fails (c0 : client) :
  fails_alike _get_headers_once (token_conn_down c0) 1 [EvIsFile DEFAULT_CACHE; fetch_event c0].
Proof.
  intros [c fs net sent tr clk] (Hf & Hs & Ht & Hfs & Hn).
  unfold all_conn_errors in Hn. cbn [w_client w_fs w_net w_sent] in *.
  rewrite get_headers_once_no_cache by assumption.
  assert (Ef : fetch_event c = fetch_event c0).
  { unfold fetch_event. rewrite (token_request_same c c0 Hs Ht). reflexivity. }
  rewrite Ef. unfold fetch_token. cbv [mbind next_reply raise]. cbn [w_net w_sent w_client w_fs w_trace w_clock].
  rewrite (Hn sent (le_n sent)). cbn.
  split; [reflexivity|]. split; [|split; [lia|split; [|reflexivity]]].
  - repeat split; cbn; try assumption.
    intros k Hk. apply Hn. cbn in Hk. lia.
  - rewrite <- app_assoc. reflexivity.
Qed.

(** The token step gives up after its own five attempts, one token request
    each. *)
Lemma get_headers_conn_down (c0 : client) :
  fails_alike _get_headers (token_conn_down c0) 5
    (concat (repeat [EvIsFile DEFAULT_CACHE; fetch_event c0] 5)).
Proof.
  intros w Hw.
  destruct (retry_loop_gives_up None (now w) _get_headers_once (token_conn_down c0) 1 _
              (token_conn_down_fails c0) MAX_RETRIES w Hw)
    as (a & _ & H1 & H2 & H3 & H4 & H5 & H6).
  assert (Ha : a = 5%nat) by (apply H6; discriminate). subst a.
  assert (E : _get_headers w = retry_loop None (now w) MAX_RETRIES _get_headers_once w)
    by reflexivity.
  rewrite E. split; [exact H1|]. split; [exact H2|]. split; [rewrite H3; lia|].
  split; [exact H4 | exact H5].
Qed.

Lemma token_conn_down_request_fails (q : pyval) (c0 : client) :
  fails_alike (process_request_once q) (token_conn_down c0) 5
    (concat (repeat [EvIsFile DEFAULT_CACHE; fetch_event c0] 5)).
Proof.
  intros w Hw. destruct (get_headers_conn_down c0 w Hw) as (H1 & H2 & H3 & H4 & H5).
  unfold process_request_once. rewrite mbind_attempt, H1. cbv [raise]. cbn [fst snd].
  split; [reflexivity|]. split; [exact H2|]. split; [exact H3|]. split; [exact H4 | exact H5].
Qed.


(** A client whose token step is satisfied by the cache: the token step
    sends nothing and succeeds. *)
Definition timeout_world : world :=
  mkWorld used_client cached_token_fs (replies [Timeout]) 0 [] frozen_clock.

(** The cached token in use, the connection down. *)
Definition post_down_world : world :=
  mkWorld used_client cached_token_fs (replies []) 0 [] frozen_clock.

(** A fresh client, no token file, the connection down. *)
Definition token_down_world : world :=
  mkWorld (new_client (Some 205033%Z) None "" 60000) [] (replies []) 0 [] frozen_clock.



(** ** C5 *)

Lemma mapM_Forall2 {A B : Type} (f : A -> res B) (l : list A) (out : list B) :
  mapM f l = Ok out -> Forall2 (fun a b => f a = Ok b) l out.
Proof.
  revert out; induction l as [|x xs IH]; simpl; intros out H.
  - injection H as <-. constructor.
  - destruct (f x) as [b|e] eqn:Ef; simpl in H; [|discriminate].
    destruct (mapM f xs) as [bs|e] eqn:Em; simpl in H; [|discriminate].
    injection H as <-. constructor; auto.
Qed.

(** C5, as the code behaves: a successful [price_lookup_service] returns the
    normalized stations under "results" and, only when the trend list is
    not empty, the trend records (one per upstream trend, in upstream order)
    under "trend"; with an empty trend list the result has no "trend" key. *)
Theorem C5_service_trend_field (lat lon : option Q) (zipcode : option Z) (limit : Z)
    (w w' : world) (v : pyval) :
  price_lookup_service lat lon zipcode limit w = (Ok v, w') ->
  exists response results ts trends,
    fst (process_request (service_query lat lon zipcode) w) = Ok response /\
    _parse_results response limit = Ok results /\
    (x <- getpath response trends_path ;; py_iter x) = Ok ts /\
    Forall2 (fun t r => parse_trend t = Ok r) ts trends /\
    v = PDict ((PStr "results", PList results)
               :: match trends with
                  | [] => []
                  | _ => [(PStr "trend", PList trends)]
                  end).
Proof.
  unfold price_lookup_service, mbind. intro H.
  destruct (process_request (service_query lat lon zipcode) w) as [[resp|e] w1] eqn:Ep;
    [|discriminate].
  unfold service_result, mbind, lift, raise, mret in H.
  destruct (in_keys (PStr "error") resp) as [[|]|e]; try discriminate.
  destruct (in_keys (PStr "errors") resp) as [[|]|e]; try discriminate.
  - destruct (service_errors_message resp); discriminate.
  - destruct (_parse_results resp limit) as [results|e] eqn:Er; [|discriminate].
    destruct (_parse_trends resp) as [trends|e] eqn:Et; [|discriminate].
    injection H as <- _.
    unfold _parse_trends in Et.
    destruct (x <- getpath resp trends_path ;; py_iter x) as [ts|e] eqn:Ei.
    + exists resp, results, ts, trends.
      assert (Hm : mapM parse_trend ts = Ok trends).
      { destruct (getpath resp trends_path) as [tv|]; simpl in *; [|discriminate].
        rewrite Ei in Et. exact Et. }
      repeat split; try assumption.
      * apply mapM_Forall2, Hm.
      * destruct trends; reflexivity.
    + exfalso. destruct (getpath resp trends_path) as [tv|]; simpl in *;
        [rewrite Ei in Et|]; discriminate.
Qed.

Definition demo_trend : pyval :=
  PDict [(PStr "today", PNum (329 # 100)); (PStr "todayLow", PNum (289 # 100));
         (PStr "areaName", PStr "Arizona")].

(** A client whose cached token is in use, with one answer to its query. *)
Definition answered_world (payload : pyval) : world :=
  mkWorld used_client cached_token_fs (replies [Response 200 "{}" (Some payload)]) 0 [] frozen_clock.

Lemma C5_witness :
  exists v w',
    price_lookup_service None None (Some 85001%Z) 5
      (answered_world (search_payload two_stations [demo_trend])) = (Ok v, w') /\
    exists response results ts trends,
      fst (process_request (service_query None None (Some 85001%Z))
             (answered_world (search_payload two_stations [demo_trend]))) = Ok response /\
      _parse_results response 5 = Ok results /\
      (x <- getpath response trends_path ;; py_iter x) = Ok ts /\
      Forall2 (fun t r => parse_trend t = Ok r) ts trends /\
      v = PDict ((PStr "results", PList results)
                 :: match trends with
                    | [] => []
                    | _ => [(PStr "trend", PList trends)]
                    end).
Proof.
  do 2 eexists. split; [vm_compute; reflexivity|].
  eapply (C5_service_trend_field None None (Some 85001%Z) 5
           (answered_world (search_payload two_stations [demo_trend]))).
  vm_compute. reflexivity.
Defined.

(** With an empty upstream trend list the result has no "trend" key, where
    the claim expects an empty sequence under it. *)
Lemma C5_counterexample :
  fst (price_lookup_service None None (Some 85001%Z) 5
         (answered_world (search_payload two_stations []))) =
  Ok (PDict [(PStr "results", PList [station_record "187725"; station_record "205033"])]).
Proof. vm_compute. reflexivity. Qed.

(** ** C3 *)

(** The body [{"data": null}], decoded. *)
Definition null_data_body : pyval := PDict [(PStr "data", PNone)].

(** The query of [price_lookup] answered with the given status and the body
    [{"data": null}]. *)
Definition status_world (status : Z) : world :=
  mkWorld used_client cached_token_fs
    (replies [Response status "{}" (Some null_data_body)]) 0 [] frozen_clock.

(** C3 (the code differs): a 403 whose body is JSON marks the token stale
    but returns the decoded body itself, with no "error" key, while any
    other non-200 status wraps the same body as [{"error": body}].  A
    [price_lookup] on such a 403 then fails with [TypeError] while
    normalizing, not with [LibraryError]. *)
Theorem C3_403_json_body_unwrapped :
  fst (process_request (price_query (Some 205033%Z)) (status_world 403)) =
    Ok null_data_body /\
  _cf_last (w_client (snd (process_request (price_query (Some 205033%Z))
                             (status_world 403)))) = Some false /\
  in_keys (PStr "error") null_data_body = Ok false /\
  fst (process_request (price_query (Some 205033%Z)) (status_world 500)) =
    Ok (error_result null_data_body) /\
  fst (price_lookup (status_world 403)) = Raise TypeError /\
  fst (price_lookup (status_world 500)) = Raise LibraryError.
Proof. repeat split; vm_compute; reflexivity. Qed.

(** ** C4 *)

(** A GraphQL [errors] array, and an [errors] object without a message. *)
Definition errors_array : pyval :=
  PDict [(PStr "errors", PList [PDict [(PStr "message", PStr "Fake Error")]])].

Definition errors_code_only : pyval :=
  PDict [(PStr "errors", PDict [(PStr "code", PNum 1)])].

(** C4 (the code differs): [price_lookup_service] reads only
    [response["errors"]["message"]], so an [errors] array makes it raise
    [TypeError] instead of [APIError], where [price_lookup] falls back to
    the first entry and raises [APIError]; and [price_lookup] itself catches
    only [ValueError] and [TypeError], so an [errors] object without a
    "message" key makes it raise [KeyError]. *)
Theorem C4_errors_payload_not_api_error :
  fst (price_lookup_service None None (Some 85001%Z) 5 (answered_world errors_array)) =
    Raise TypeError /\
  fst (price_lookup (answered_world errors_array)) = Raise APIError /\
  lookup_errors_message errors_array = Ok (PStr "Fake Error") /\
  fst (price_lookup (answered_world errors_code_only)) = Raise KeyError /\
  fst (price_lookup_service None None (Some 85001%Z) 5 (answered_world errors_code_only)) =
    Raise KeyError.
Proof. repeat split; vm_compute; reflexivity. Qed.

(** ** C7 *)

(** A client with the cache file [cache/test_cache]; the network answers two
    rounds of a landing page and a station. *)
Definition custom_cache_world : world :=
  demo_world "cache/test_cache" []
    [Response 200 landing_page None; Response 200 "{}" (Some station_payload);
     Response 200 landing_page None; Response 200 "{}" (Some station_payload)].

(** C7 (the code differs): the first call uses the caller's path, but on
    the next call [_cache_manager] is set, so [_get_headers] takes its
    [else] branch and replaces it by a [GasBuddyCache()] on the default
    path: the second [price_lookup] checks and writes the token file at the
    default location, and fetches a new token although the caller's file
    holds one. *)
Theorem C7_second_call_uses_default_cache :
  w_trace (snd (price_lookup custom_cache_world)) =
    [EvIsFile "cache/test_cache"; EvFetch "get" GB_HOME_URL (PDict []);
     EvWrite "cache/test_cache";
     EvPost BASE_URL (PStr demo_token) (price_query (Some 205033%Z))] /\
  _cache_manager (w_client (snd (price_lookup (snd (price_lookup custom_cache_world))))) =
    Some DEFAULT_CACHE /\
  w_trace (snd (price_lookup (snd (price_lookup custom_cache_world)))) =
    w_trace (snd (price_lookup custom_cache_world)) ++
    [EvIsFile DEFAULT_CACHE; EvFetch "get" GB_HOME_URL (PDict []);
     EvWrite DEFAULT_CACHE;
     EvPost BASE_URL (PStr demo_token) (price_query (Some 205033%Z))].
Proof. repeat split; vm_compute; reflexivity. Qed.

(** * Further properties of the code *)

(** ** [GasBuddyCache] *)

Lemma fs_find_remove_other (fs : list (string * file)) (p q : string) :
  q <> p -> fs_find (fs_remove fs p) q = fs_find fs q.
Proof.
  intro Hne. induction fs as [|[p' f] fs IH]; simpl; [reflexivity|].
  destruct (String.eqb p' p) eqn:E; simpl.
  - apply String.eqb_eq in E. subst p'.
    destruct (String.eqb p q) eqn:E2; [apply String.eqb_eq in E2; congruence | exact IH].
  - destruct (String.eqb p' q); [reflexivity | exact IH].
Qed.

Lemma fs_find_store (fs : list (string * file)) (p q : string) (f : file) :
  fs_find (fs_store fs p f) q = if String.eqb p q then Some f else fs_find fs q.
Proof.
  unfold fs_store. simpl. destruct (String.eqb p q) eqn:E; [reflexivity|].
  apply fs_find_remove_other. intro H. subst. rewrite String.eqb_refl in E. discriminate.
Qed.

(** [clear_cache] of a [GasBuddyCache]: afterwards [cache_exists] is false
    at its path; a file of at most 30 bytes there is left in place (it is
    not reported as existing, so it is not removed); files at other paths
    are untouched. *)
Theorem cache_clear_then_absent (p : string) (w : world) :
  fst (cache_exists p (snd (cache_clear p w))) = Ok false /\
  (forall f, fs_find (w_fs w) p = Some f -> (String.length (ftext f) <= 30)%nat ->
             fs_find (w_fs (snd (cache_clear p w))) p = Some f) /\
  (forall q, q <> p -> fs_find (w_fs (snd (cache_clear p w))) q = fs_find (w_fs w) q).
Proof.
  destruct w as [c fs net sent tr]. unfold cache_clear, cache_exists.
  cbv [mbind emit get_fs mret put_fs]. simpl.
  destruct (fs_find fs p) as [f|] eqn:E; simpl.
  - destruct (30 <? String.length (ftext f))%nat eqn:L; simpl.
    + rewrite fs_find_remove. split; [reflexivity|]. split.
      * intros f' [= <-] Hl. apply Nat.ltb_lt in L. lia.
      * intros q Hq. apply fs_find_remove_other, Hq.
    + rewrite E, L. split; [reflexivity|]. split; [intros f' [= <-] _; reflexivity|].
      intros; reflexivity.
  - rewrite E. split; [reflexivity|]. split; [discriminate|]. intros; reflexivity.
Qed.

(** ** [CSRF_PATTERN] *)

(** Every character of [s] is matched by [\s]. *)
Fixpoint all_space (s : string) : bool :=
  match s with
  | EmptyString => true
  | String c rest => is_space c && all_space rest
  end.

(** [s] holds no double quote and no newline. *)
Fixpoint no_quote_nl (s : string) : bool :=
  match s with
  | EmptyString => true
  | String c rest =>
      negb (nat_of_ascii c =? 34)%nat && negb (nat_of_ascii c =? 10)%nat && no_quote_nl rest
  end.

Lemma prefix_app (a b : string) : String.prefix a (a ++ b) = true.
Proof.
  induction a as [|c a IH]; simpl; [destruct b; reflexivity|].
  destruct (ascii_dec c c); [exact IH | contradiction].
Qed.

Lemma substring_0_all (s : string) (m : nat) :
  (String.length s <= m)%nat -> substring 0 m s = s.
Proof.
  revert m. induction s as [|c s IH]; intros m H; simpl.
  - destruct m; reflexivity.
  - destruct m as [|m]; simpl in H; [lia|]. f_equal. apply IH. lia.
Qed.

Lemma string_length_app (a b : string) :
  String.length (a ++ b) = (String.length a + String.length b)%nat.
Proof. induction a as [|c a IH]; simpl; [reflexivity | rewrite IH; reflexivity]. Qed.

Lemma substring_after (a b : string) :
  substring (String.length a) (String.length (a ++ b)) (a ++ b) = b.
Proof.
  assert (G : forall m, (String.length b <= m)%nat ->
              substring (String.length a) m (a ++ b) = b).
  { induction a as [|c a IH]; intros m H; simpl; [apply substring_0_all, H|].
    apply IH, H. }
  apply G. rewrite string_length_app. lia.
Qed.

Lemma skip_space_app (sp s : string) :
  all_space sp = true -> skip_space (sp ++ s) = skip_space s.
Proof.
  induction sp as [|c sp IH]; simpl; [reflexivity|].
  intro H. apply andb_prop in H as [H1 H2]. rewrite H1. apply IH, H2.
Qed.

Lemma upto_quote_token (t rest : string) :
  no_quote_nl t = true -> upto_quote (t ++ dq ++ rest) = Some t.
Proof.
  induction t as [|c t IH]; cbn [append upto_quote no_quote_nl]; [reflexivity|].
  intro H. apply andb_prop in H as [H1 H3]. apply andb_prop in H1 as [Hq Hn].
  apply negb_true_iff in Hq, Hn. rewrite Hq, Hn, IH by exact H3. reflexivity.
Qed.

Lemma csrf_search_here (s t : string) :
  csrf_match_here s = Some t -> csrf_search s = Some t.
Proof. intro H. destruct s; cbn [csrf_search]; rewrite H; reflexivity. Qed.

(** [CSRF_PATTERN.search] on a page that starts with the assignment
    [window.gbcsrf = "t"] (any whitespace around [=]) returns [t], for a
    token [t] without double quote or newline. *)
Theorem csrf_search_assignment (sp1 sp2 t rest : string) :
  all_space sp1 = true -> all_space sp2 = true -> no_quote_nl t = true ->
  csrf_search (csrf_marker ++ sp1 ++ "=" ++ sp2 ++ dq ++ t ++ dq ++ rest) = Some t.
Proof.
  intros H1 H2 Ht.
  assert (Hm : csrf_match_here (csrf_marker ++ sp1 ++ "=" ++ sp2 ++ dq ++ t ++ dq ++ rest)
               = Some t).
  { unfold csrf_match_here. rewrite prefix_app, substring_after, skip_space_app by exact H1.
    simpl. rewrite skip_space_app by exact H2. simpl. apply upto_quote_token, Ht. }
  apply csrf_search_here, Hm.
Qed.

Lemma csrf_search_assignment_witness :
  all_space " " = true /\ all_space "" = true /\ no_quote_nl demo_token = true /\
  csrf_search (csrf_marker ++ " " ++ "=" ++ "" ++ dq ++ demo_token ++ dq ++ ";")
    = Some demo_token.
Proof.
  split; [reflexivity|]. split; [reflexivity|]. split; [reflexivity|].
  apply csrf_search_assignment; reflexivity.
Defined.

(** ** [GasBuddy._get_headers] *)





Lemma getitem_raise (v k : pyval) (e : exc) :
  getitem v k = Raise e -> e = KeyError \/ e = TypeError \/ e = IndexError.
Proof.
  unfold getitem, seq_index.
  destruct v; try (intros [= <-]; auto; fail).
  - destruct (int_index k); [|intros [= <-]; auto].
    destruct (_ || _)%bool; [intros [= <-]; auto|].
    destruct (nth_error _ _); intros [= <-]; auto.
  - destruct (int_index k); [|intros [= <-]; auto].
    destruct (_ || _)%bool; [intros [= <-]; auto|].
    destruct (nth_error _ _); intros [= <-]; auto.
  - destruct (hashable k); [|intros [= <-]; auto].
    destruct (dict_find _ _); intros [= <-]; auto.
Qed.

Lemma getpath_raise (v : pyval) (ks : list string) (e : exc) :
  getpath v ks = Raise e -> e = KeyError \/ e = TypeError \/ e = IndexError.
Proof.
  unfold getpath.
  assert (G : forall acc, (forall e', acc = Raise e' -> e' = KeyError \/ e' = TypeError \/ e' = IndexError) ->
     fold_left (fun acc k => x <- acc ;; getitem x (PStr k)) ks acc = Raise e ->
     e = KeyError \/ e = TypeError \/ e = IndexError).
  { induction ks as [|k ks IH]; simpl; intros acc Hacc H; [apply Hacc, H|].
    eapply IH; [|exact H]. intros e' He'.
    destruct acc as [a|ea]; simpl in He'; [apply (getitem_raise a (PStr k)), He'|].
    apply Hacc. congruence. }
  apply G. discriminate.
Qed.

Lemma get_headers_once_stale (w : world) :
  _cf_last (w_client w) = Some false -> fs_readable (w_fs w) ->
  In (fetch_event (w_client w)) (w_trace (snd (_get_headers_once w))).
Proof.
  destruct w as [[id solver tag cf cfile mgr tmo] fs net sent tr clk]. simpl. intros -> Hr.
  unfold _get_headers_once. rewrite mbind_get_client. cbn [w_client _cache_file _cache_manager].
  match goal with |- context [set_cache_manager (Some ?x)] => remember x as m eqn:Em; clear Em end.
  unfold cache_exists, read_cache, set_tag, set_cf_last.
  cbv [mbind set_cache_manager get_client put_client emit get_fs mret].
  cbn -[fetch_token token_request Nat.ltb].
  destruct (fs_find fs m) as [f|] eqn:E; cbn -[fetch_token token_request Nat.ltb];
    [destruct (30 <? _)%nat; cbn -[fetch_token token_request Nat.ltb];
     [rewrite E; cbn -[fetch_token token_request Nat.ltb];
      pose proof (Hr m f E) as Hf; unfold readable in Hf;
      destruct (fjson f) as [[]| | |]; try discriminate Hf;
      cbn -[fetch_token token_request Nat.ltb dict_find];
      try (destruct (dict_find _ _); cbn -[fetch_token token_request Nat.ltb])|]|].
  all: same_token_request; cbn -[fetch_token];
    (apply in_trace_mono; [apply tame_fetch_token|]);
    apply in_or_app; right; left; reflexivity.
Qed.

Lemma stale_request_fetches (q : pyval) (w : world) :
  _cf_last (w_client w) = Some false -> fs_readable (w_fs w) ->
  In (fetch_event (w_client w)) (w_trace (snd (process_request q w))).
Proof.
  intros H Hr. apply in_process_request_headers. unfold _get_headers.
  apply in_on_client_error_first; [apply tame_get_headers_once|].
  apply get_headers_once_stale; assumption.
Qed.

Lemma cf_last_after_response (q : pyval) (w w1 : world) (u : unit) (st : Z)
    (txt : string) (dec : option pyval) :
  _get_headers w = (Ok u, w1) -> w_net w1 (w_sent w1) = Response st txt dec ->
  _cf_last (w_client (snd (process_request q w))) =
    Some ((st =? 200)%Z && match dec with Some _ => true | None => false end).
Proof.
  intros H Hn. unfold process_request.
  rewrite on_client_error_not_client.
  2:{ rewrite (process_request_once_after_headers q w w1 u H), Hn.
      destruct (st =? 403)%Z; [discriminate|]. destruct (negb _); discriminate. }
  unfold process_request_once. rewrite mbind_attempt, H.
  destruct w1 as [c fs net sent tr]. simpl in Hn. simpl.
  cbv [mbind get_client emit next_reply mret raise set_cf_last put_client]. simpl.
  rewrite Hn. destruct dec; simpl;
    destruct (Z.eqb_spec st 403); destruct (Z.eqb_spec st 200); subst; simpl;
    try lia; reflexivity.
Qed.

(** ** Readable cache files *)

(** A computation that never leaves a file behind that [read_cache] cannot
    read: the code only writes [json.dumps] output. *)
Definition keeps_readable {A : Type} (c : M A) : Prop :=
  forall w, fs_readable (w_fs w) -> fs_readable (w_fs (snd (c w))).

Create HintDb readable_db.

Lemma token_file_readable (t : string) : readable (token_file t) = true.
Proof. reflexivity. Qed.

Lemma keeps_bind {A B : Type} (c : M A) (k : A -> M B) :
  keeps_readable c -> (forall a, keeps_readable (k a)) -> keeps_readable (mbind c k).
Proof.
  intros Hc Hk w Hw. unfold mbind. specialize (Hc w Hw).
  destruct (c w) as [[a|e] w']; simpl in *; [apply Hk, Hc | exact Hc].
Qed.

Lemma keeps_same_fs {A : Type} (c : M A) :
  (forall w, w_fs (snd (c w)) = w_fs w) -> keeps_readable c.
Proof. intros H w Hw. rewrite H. exact Hw. Qed.

Lemma keeps_ret {A : Type} (a : A) : keeps_readable (mret a).
Proof. apply keeps_same_fs. reflexivity. Qed.

Lemma keeps_raise {A : Type} (e : exc) : keeps_readable (@raise A e).
Proof. apply keeps_same_fs. reflexivity. Qed.

Lemma keeps_lift {A : Type} (r : res A) : keeps_readable (lift r).
Proof. apply keeps_same_fs. reflexivity. Qed.

Lemma keeps_get_client : keeps_readable get_client.
Proof. apply keeps_same_fs. reflexivity. Qed.

Lemma keeps_put_client (c : client) : keeps_readable (put_client c).
Proof. apply keeps_same_fs. reflexivity. Qed.

Lemma keeps_emit (e : event) : keeps_readable (emit e).
Proof. apply keeps_same_fs. reflexivity. Qed.

Lemma keeps_next_reply : keeps_readable next_reply.
Proof. apply keeps_same_fs. reflexivity. Qed.

Lemma keeps_get_fs : keeps_readable get_fs.
Proof. apply keeps_same_fs. reflexivity. Qed.

Lemma keeps_attempt {A : Type} (c : M A) : keeps_readable c -> keeps_readable (attempt c).
Proof. intros Hc w Hw. unfold attempt. specialize (Hc w Hw). destruct (c w). exact Hc. Qed.

Lemma keeps_retry_loop {A : Type} (mt : option Q) (s : Q) (n : nat) (f : M A) :
  keeps_readable f -> keeps_readable (retry_loop mt s n f).
Proof.
  intro Hf. induction n as [|[|m] IH]; [exact Hf | exact Hf|].
  intros w Hw. rewrite retry_loop_S. specialize (Hf w Hw).
  destruct (f w) as [[a|[]] w']; try exact Hf.
  destruct (time_up mt (now w - s)); [exact Hf | apply IH, Hf].
Qed.

Lemma keeps_on_client_error {A : Type} (mt : option Q) (n : nat) (f : M A) :
  keeps_readable f -> keeps_readable (on_client_error mt n f).
Proof. intros Hf w. apply (keeps_retry_loop mt (now w) n f Hf w). Qed.

Lemma keeps_write_token (p t : string) : keeps_readable (write_cache p (token_file t)).
Proof.
  intros w Hw q f. unfold write_cache. cbv [mbind emit get_fs put_fs]. simpl.
  destruct (String.eqb p q) eqn:E; [intros [= <-]; reflexivity|].
  rewrite fs_find_remove_other; [apply Hw|].
  intros ->. rewrite String.eqb_refl in E. discriminate.
Qed.

#[local] Hint Resolve keeps_ret keeps_raise keeps_lift keeps_get_client keeps_put_client
  keeps_emit keeps_next_reply keeps_get_fs keeps_attempt keeps_on_client_error
  keeps_write_token : readable_db.

Ltac keeps_steps :=
  repeat match goal with
  | |- keeps_readable (mbind _ _) => apply keeps_bind; [|intro]
  | |- keeps_readable (match ?x with _ => _ end) => destruct x
  | |- keeps_readable (if ?b then _ else _) => destruct b
  | |- _ => solve [eauto with readable_db]
  end.

Lemma keeps_get_headers : keeps_readable _get_headers.
Proof.
  unfold _get_headers. apply keeps_on_client_error.
  unfold _get_headers_once, fetch_token, set_cache_manager, cache_exists, read_cache,
    set_tag, set_cf_last.
  keeps_steps.
Qed.

Lemma keeps_process_request (q : pyval) : keeps_readable (process_request q).
Proof.
  unfold process_request. apply keeps_on_client_error.
  unfold process_request_once, set_cf_last. pose proof keeps_get_headers. keeps_steps.
Qed.


Lemma process_request_headers_raise (q : pyval) (w : world) (e : exc) :
  fst (_get_headers w) = Raise e -> e <> ClientError -> e <> CSRFTokenMissing ->
  fst (process_request q w) = Raise e.
Proof.
  intros H H1 H2.
  assert (E : fst (process_request_once q w) = Raise e).
  { unfold process_request_once. rewrite mbind_attempt, H.
    destruct e; try reflexivity; contradiction. }
  unfold process_request. rewrite on_client_error_not_client; [exact E|].
  rewrite E. congruence.
Qed.


(** A cached token is used as is: with a token file of more than 30 bytes
    at the default location holding [TOKEN] and [_cf_last] not False,
    [_get_headers] only checks and reads the file, sets [_tag] to the stored
    token and sends no request; [process_request] then posts with that
    token. *)
Theorem get_headers_cached_token (w : world) (f : file) (d : list (pyval * pyval))
    (tv : pyval) :
  _cache_file (w_client w) = "" -> _cf_last (w_client w) <> Some false ->
  fs_find (w_fs w) DEFAULT_CACHE = Some f -> (30 < String.length (ftext f))%nat ->
  fjson f = Loaded (PDict d) -> dict_find d (PStr TOKEN) = Some tv ->
  _get_headers w =
    (Ok tt,
     mkWorld (mkClient (_id (w_client w)) (_solver (w_client w)) tv (_cf_last (w_client w)) ""
                       (Some DEFAULT_CACHE) (_timeout (w_client w)))
             (w_fs w) (w_net w) (w_sent w)
             ((w_trace w ++ [EvIsFile DEFAULT_CACHE]) ++ [EvRead DEFAULT_CACHE]) (w_clock w)) /\
  (forall q, In (EvPost BASE_URL tv q) (w_trace (snd (process_request q w)))).
Proof.
  intros Hf Hcf E L J D.
  pose proof (get_headers_once_cached w f d tv Hf Hcf E L J D) as H1.
  assert (H : _get_headers w = _get_headers_once w).
  { unfold _get_headers. apply on_client_error_not_client. rewrite H1. discriminate. }
  rewrite H, H1. split; [reflexivity|].
  intro q. unfold process_request.
  apply in_on_client_error_first; [apply tame_process_request_once|].
  unfold process_request_once. rewrite mbind_attempt, H, H1. cbn [fst snd].
  rewrite mbind_get_client. cbn [w_client _tag].
  apply in_mbind_first; [intro; tame_steps|].
  cbn. apply in_or_app. right. left. reflexivity.
Qed.

Lemma get_headers_cached_token_witness :
  (_get_headers (answered_world station_payload) =
    (Ok tt,
     mkWorld used_client cached_token_fs (w_net (answered_world station_payload)) 0
             (([] ++ [EvIsFile DEFAULT_CACHE]) ++ [EvRead DEFAULT_CACHE]) frozen_clock)) /\
  (forall q, In (EvPost BASE_URL (PStr demo_token) q)
                (w_trace (snd (process_request q (answered_world station_payload))))).
Proof.
  apply (get_headers_cached_token (answered_world station_payload) (token_file demo_token)
           [(PStr TOKEN, PStr demo_token)] (PStr demo_token));
    try reflexivity; try discriminate; vm_compute; lia.
Defined.

(** A stale token is always replaced: when [_cf_last] is False and the
    files on disk can be read (as text, and as JSON or not JSON at all),
    [process_request] sends a token request, whatever token the cache
    holds. *)
Theorem process_request_stale_fetches (q : pyval) (w : world) :
  _cf_last (w_client w) = Some false -> fs_readable (w_fs w) ->
  In (fetch_event (w_client w)) (w_trace (snd (process_request q w))).
Proof. apply stale_request_fetches. Qed.

Lemma process_request_stale_fetches_witness :
  In (fetch_event (mkClient (Some 205033%Z) None (PStr "") (Some false) "" None 60000))
     (w_trace (snd (process_request (price_query (Some 205033%Z))
        (mkWorld (mkClient (Some 205033%Z) None (PStr "") (Some false) "" None 60000)
                 cached_token_fs (replies []) 0 [] frozen_clock)))).
Proof.
  apply (process_request_stale_fetches (price_query (Some 205033%Z))
           (mkWorld (mkClient (Some 205033%Z) None (PStr "") (Some false) "" None 60000)
                    cached_token_fs (replies []) 0 [] frozen_clock));
    [reflexivity | apply fs_readable_all; reflexivity].
Defined.





(** The error [read_cache] raises on a file it cannot read. *)
Definition read_error (f : file) : option exc :=
  match fjson f with
  | NotText => Some UnicodeDecodeError
  | LoadsValueError => Some ValueError
  | Loaded _ | NotJSON => None
  end.

Lemma get_headers_once_read_error (w : world) (f : file) (e : exc) :
  _cache_file (w_client w) = "" -> fs_find (w_fs w) DEFAULT_CACHE = Some f ->
  (30 < String.length (ftext f))%nat -> read_error f = Some e ->
  fst (_get_headers_once w) = Raise e /\ w_sent (snd (_get_headers_once w)) = w_sent w.
Proof.
  destruct w as [[id solver tag cf cfile mgr tmo] fs net sent tr clk]. simpl.
  intros -> E L He.
  unfold _get_headers_once, cache_exists, read_cache.
  cbv [mbind set_cache_manager get_client put_client emit get_fs mret raise].
  cbn -[token_request Nat.ltb fs_find].
  rewrite E. cbn -[token_request Nat.ltb fs_find].
  rewrite (proj2 (Nat.ltb_lt _ _) L). cbn -[token_request Nat.ltb fs_find].
  rewrite E. unfold read_error in He.
  destruct (fjson f); try discriminate; injection He as <-; split; reflexivity.
Qed.

Lemma process_request_once_headers_error (q : pyval) (w : world) (e : exc) :
  fst (_get_headers w) = Raise e -> e <> CSRFTokenMissing ->
  process_request_once q w = (Raise e, snd (_get_headers w)).
Proof.
  intros H Hc. unfold process_request_once. rewrite mbind_attempt, H.
  destruct e; try reflexivity; contradiction.
Qed.

(** A token file that cannot be read is fatal: with the default cache
    location and a file of more than 30 bytes there that is not valid text
    ([UnicodeDecodeError]) or that [json.loads] rejects with a [ValueError]
    other than [JSONDecodeError], [process_request] raises that error,
    which neither backoff retries, and sends no request. *)
Theorem process_request_unreadable_cache (q : pyval) (w : world) (f : file) :
  _cache_file (w_client w) = "" -> fs_find (w_fs w) DEFAULT_CACHE = Some f ->
  (30 < String.length (ftext f))%nat ->
  (fjson f = NotText ->
   fst (process_request q w) = Raise UnicodeDecodeError /\
   w_sent (snd (process_request q w)) = w_sent w) /\
  (fjson f = LoadsValueError ->
   fst (process_request q w) = Raise ValueError /\
   w_sent (snd (process_request q w)) = w_sent w).
Proof.
  intros Hf E L.
  assert (G : forall e, read_error f = Some e ->
              fst (process_request q w) = Raise e /\
              w_sent (snd (process_request q w)) = w_sent w).
  { intros e He. destruct (get_headers_once_read_error w f e Hf E L He) as [H1 H2].
    assert (Hne : e <> ClientError /\ e <> CSRFTokenMissing).
    { unfold read_error in He.
      destruct (fjson f); try discriminate; injection He as <-; split; discriminate. }
    assert (Hg : _get_headers w = _get_headers_once w).
    { unfold _get_headers. apply on_client_error_not_client. rewrite H1.
      intro Hc. injection Hc as Hc. exact (proj1 Hne Hc). }
    rewrite <- Hg in H1, H2.
    pose proof (process_request_once_headers_error q w e H1 (proj2 Hne)) as P.
    unfold process_request. rewrite on_client_error_not_client; rewrite P.
    - split; [reflexivity | exact H2].
    - intro Hc. injection Hc as Hc. exact (proj1 Hne Hc). }
  split; intro J; apply G; unfold read_error; rewrite J; reflexivity.
Qed.

(** A token file of 40 bytes at the default location. *)
Definition bad_cache_fs (j : loaded) : list (string * file) :=
  [(DEFAULT_CACHE, mkFile "0123456789012345678901234567890123456789" j)].

Lemma process_request_unreadable_cache_witness :
  (fst (process_request (price_query (Some 205033%Z))
          (mkWorld used_client (bad_cache_fs NotText) (replies []) 0 [] frozen_clock)) =
     Raise UnicodeDecodeError /\
   w_sent (snd (process_request (price_query (Some 205033%Z))
                  (mkWorld used_client (bad_cache_fs NotText) (replies []) 0 [] frozen_clock))) =
     0%nat) /\
  (fst (process_request (price_query (Some 205033%Z))
          (mkWorld used_client (bad_cache_fs LoadsValueError) (replies []) 0 [] frozen_clock)) =
     Raise ValueError /\
   w_sent (snd (process_request (price_query (Some 205033%Z))
                  (mkWorld used_client (bad_cache_fs LoadsValueError) (replies []) 0 []
                           frozen_clock))) = 0%nat).
Proof.
  split.
  - apply (process_request_unreadable_cache (price_query (Some 205033%Z))
             (mkWorld used_client (bad_cache_fs NotText) (replies []) 0 [] frozen_clock)
             (mkFile "0123456789012345678901234567890123456789" NotText));
      [reflexivity | reflexivity | vm_compute; lia | reflexivity].
  - apply (process_request_unreadable_cache (price_query (Some 205033%Z))
             (mkWorld used_client (bad_cache_fs LoadsValueError) (replies []) 0 [] frozen_clock)
             (mkFile "0123456789012345678901234567890123456789" LoadsValueError));
      [reflexivity | reflexivity | vm_compute; lia | reflexivity].
Defined.

Lemma mbind_fst_ok {A B : Type}
 (c : M A) (k : A -> M B) (w : world) (a : A) :
  fst (c w) = Ok a -> mbind c k w = k a (snd (c w)).
Proof. unfold mbind. destruct (c w) as [r w']. simpl. intros ->. reflexivity. Qed.

Lemma process_request_error_result (q : pyval) (w w1 : world) (u : unit) (r : reply) :
  _get_headers w = (Ok u, w1) -> w_net w1 (w_sent w1) = r -> r <> ConnError ->
  (forall st txt v, r = Response st txt (Some v) -> st <> 200%Z /\ st <> 403%Z) ->
  exists x, fst (process_request q w) = Ok (error_result x).
Proof.
  intros H Hr Hc Hs.
  pose proof (process_request_once_after_headers q w w1 u H) as E. rewrite Hr in E.
  assert (Hx : exists x, fst (process_request_once q w) = Ok (error_result x)).
  { rewrite E. destruct r as [st txt [v|]| | |].
    - destruct (Hs st txt v eq_refl) as [H1 H2].
      apply Z.eqb_neq in H1, H2. rewrite H1, H2. eexists; reflexivity.
    - destruct (st =? 403)%Z; [eexists; reflexivity|].
      destruct (negb _); eexists; reflexivity.
    - eexists; reflexivity.
    - contradiction.
    - eexists; reflexivity. }
  destruct Hx as [x Hx]. exists x. unfold process_request.
  rewrite on_client_error_not_client; [exact Hx | rewrite Hx; discriminate].
Qed.



(** ** The station normalizer *)

Lemma key_eq_str_r (x : pyval) (s : string) : key_eq x (PStr s) = true -> x = PStr s.
Proof.
  destruct x; cbn; try discriminate.
  intro H. apply String.eqb_eq in H. subst. reflexivity.
Qed.

Lemma key_eq_str_l (x : pyval) (s : string) : key_eq (PStr s) x = true -> x = PStr s.
Proof.
  destruct x; cbn; try discriminate.
  intro H. apply String.eqb_eq in H. subst. reflexivity.
Qed.

Lemma dict_find_put_other (d : list (pyval * pyval)) (k v : pyval) (s : string) :
  key_eq k (PStr s) = false -> dict_find (dict_put d k v) (PStr s) = dict_find d (PStr s).
Proof.
  intro H. induction d as [|[k' v'] d IH]; simpl; [rewrite H; reflexivity|].
  destruct (key_eq k' k) eqn:E1; simpl.
  - destruct (key_eq k' (PStr s)) eqn:E2; [|reflexivity].
    apply key_eq_str_r in E2. subst k'. apply key_eq_str_l in E1. subst k.
    simpl in H. rewrite String.eqb_refl in H. discriminate.
  - destruct (key_eq k' (PStr s)); [reflexivity | exact IH].
Qed.

Lemma add_prices_other (data : list (pyval * pyval)) (ps : list pyval)
    (data' : list (pyval * pyval)) (s : string) :
  add_prices data ps = Ok data' ->
  (forall p idx, In p ps -> getitem p (PStr "fuelProduct") = Ok idx ->
                 key_eq idx (PStr s) = false) ->
  dict_find data' (PStr s) = dict_find data (PStr s).
Proof.
  revert data. induction ps as [|p ps IH]; simpl; intros data H Hk.
  - injection H as <-. reflexivity.
  - rbind_ok_in H. rbind_ok_in H. rbind_ok_in H.
    unfold setitem in Ha1. destruct (hashable a); [|discriminate]. injection Ha1 as <-.
    rewrite (IH _ H).
    + apply dict_find_put_other. apply (Hk p); [left; reflexivity | exact Ha].
    + intros p' idx Hin. apply Hk. right. exact Hin.
Qed.

Lemma getpath_snoc (v : pyval) (ks : list string) (k : string) :
  getpath v (ks ++ [k]) = (x <- getpath v ks ;; getitem x (PStr k)).
Proof. unfold getpath. rewrite fold_left_app. reflexivity. Qed.

(** [image_url] of [price_lookup]: null for a station without brands, the
    first brand's [imageUrl] otherwise (unless a fuel product is itself
    named "image_url", whose price record then takes the key). *)
Theorem normalize_station_image_url (r : pyval) (d : list (pyval * pyval))
    (bs ps : list pyval) :
  normalize_station r = Ok (PDict d) ->
  getpath r ["data"; "station"; "brands"] = Ok (PList bs) ->
  getpath r ["data"; "station"; "prices"] = Ok (PList ps) ->
  (forall p idx, In p ps -> getitem p (PStr "fuelProduct") = Ok idx ->
                 key_eq idx (PStr "image_url") = false) ->
  match bs with
  | [] => dict_find d (PStr "image_url") = Some PNone
  | b :: _ => exists x, getitem b (PStr "imageUrl") = Ok x /\
                        dict_find d (PStr "image_url") = Some x
  end.
Proof.
  intros H Hb Hp Hk. unfold normalize_station in H.
  change ["data"; "station"; "brands"] with (["data"; "station"] ++ ["brands"]) in Hb.
  change ["data"; "station"; "prices"] with (["data"; "station"] ++ ["prices"]) in Hp.
  rewrite getpath_snoc in Hb, Hp.
  destruct (getpath r ["data"; "station"]) as [st|e]; simpl in H, Hb, Hp; [|discriminate].
  do 6 rbind_ok_in H. rewrite Hb in Ha4. injection Ha4 as <-.
  apply rbind_ok in H as [nb [Hnb H]]. apply rbind_ok in H as [image [Himg H]].
  apply rbind_ok in H as [prices [Hpr H]]. rewrite Hp in Hpr. injection Hpr as <-.
  apply rbind_ok in H as [ps' [Hps H]]. simpl in Hps. injection Hps as <-.
  apply rbind_ok in H as [data [Hdata H]]. injection H as <-.
  rewrite (add_prices_other _ _ _ "image_url" Hdata Hk). simpl.
  simpl in Hnb. injection Hnb as <-.
  destruct bs as [|b bs]; simpl in Himg.
  - injection Himg as <-. reflexivity.
  - unfold seq_index in Himg. simpl in Himg.
    exists image. split; [exact Himg | reflexivity].
Qed.

Lemma normalize_station_image_url_witness :
  exists x, getitem (PDict [(PStr "imageUrl", PStr "https://images.example/b.png")])
                    (PStr "imageUrl") = Ok x /\
            dict_find (match normalize_station station_payload with
                       | Ok (PDict d) => d | _ => [] end) (PStr "image_url") = Some x.
Proof.
  apply (normalize_station_image_url station_payload
           (match normalize_station station_payload with Ok (PDict d) => d | _ => [] end)
           [PDict [(PStr "imageUrl", PStr "https://images.example/b.png")]]
           [regular_node_cash; premium_node]);
    [vm_compute; reflexivity | vm_compute; reflexivity | vm_compute; reflexivity|].
  intros p idx [<- | [<- | []]] Hg; vm_compute in Hg; injection Hg as <-; reflexivity.
Defined.

(** ** GraphQL errors in [price_lookup] *)

Lemma lookup_errors_message_shape (d : list (pyval * pyval)) (errs : pyval) :
  dict_find d (PStr "errors") = Some errs ->
  lookup_errors_message (PDict d) =
    match errs with
    | PDict e | PList (PDict e :: _) =>
        match dict_find e (PStr "message") with
        | Some m => Ok m
        | None => Raise KeyError
        end
    | _ => Ok (PStr "Server side error occured.")
    end.
Proof.
  intro H. unfold lookup_errors_message. cbn [getitem hashable]. rewrite H. cbn [rbind].
  destruct errs as [|b|q|s|l|e]; try reflexivity.
  - destruct s; reflexivity.
  - destruct l as [|x l]; [reflexivity|].
    destruct x as [|b|q|s|l'|e]; cbn; try destruct s;
      try destruct (dict_find e (PStr "message")); reflexivity.
  - cbn. destruct (dict_find e (PStr "message")); reflexivity.
Qed.

(** An [errors] payload in [price_lookup]: when the response has no
    "error" key and has an "errors" key, [price_lookup] raises [APIError],
    except when "errors" is a dictionary, or a list whose first entry is a
    dictionary, without a "message" key: then the [KeyError] of the lookup
    escapes (only [ValueError], [TypeError] and [IndexError] are caught). *)
Theorem price_lookup_errors_payload (w : world) (d : list (pyval * pyval)) (errs : pyval) :
  fst (process_request (price_query (_id (w_client w))) w) = Ok (PDict d) ->
  dict_find d (PStr "error") = None -> dict_find d (PStr "errors") = Some errs ->
  fst (price_lookup w) =
    match errs with
    | PDict e | PList (PDict e :: _) =>
        match dict_find e (PStr "message") with
        | Some _ => Raise APIError
        | None => Raise KeyError
        end
    | _ => Raise APIError
    end.
Proof.
  intros Hp H1 H2. unfold price_lookup. rewrite mbind_get_client, (mbind_fst_ok _ _ _ _ Hp).
  cbv [mbind lift raise]. cbn [in_keys]. rewrite H1, H2.
  rewrite (lookup_errors_message_shape d errs H2).
  destruct errs as [|b|q|s|[|[|b|q|s|l'|e] l]|e]; try reflexivity;
    destruct (dict_find e (PStr "message")); reflexivity.
Qed.

Lemma price_lookup_errors_payload_witness :
  fst (price_lookup (answered_world errors_code_only)) = Raise KeyError /\
  fst (price_lookup (answered_world errors_array)) = Raise APIError.
Proof.
  split.
  - apply (price_lookup_errors_payload (answered_world errors_code_only)
             [(PStr "errors", PDict [(PStr "code", PNum 1)])] (PDict [(PStr "code", PNum 1)]));
      vm_compute; reflexivity.
  - apply (price_lookup_errors_payload (answered_world errors_array)
             [(PStr "errors", PList [PDict [(PStr "message", PStr "Fake Error")]])]
             (PList [PDict [(PStr "message", PStr "Fake Error")]]));
      vm_compute; reflexivity.
Defined.

(** ** [_format_price_node] on malformed nodes *)

(** [.get] exists only on dictionaries: a price node that is not a
    dictionary, or whose "credit" value is truthy but not a dictionary, or
    (with no "credit" key) whose "cash" value is truthy but not a
    dictionary, makes [_format_price_node] raise [AttributeError]. *)
Theorem format_price_node_attribute_error (v : pyval) (nd : list (pyval * pyval))
    (c : pyval) :
  (match v with PDict _ => False | _ => True end -> _format_price_node v = Raise AttributeError) /\
  (dict_find nd (PStr "credit") = Some c -> truthy c = true ->
   match c with PDict _ => False | _ => True end ->
   _format_price_node (PDict nd) = Raise AttributeError) /\
  (dict_find nd (PStr "credit") = None -> dict_find nd (PStr "cash") = Some c ->
   truthy c = true -> match c with PDict _ => False | _ => True end ->
   _format_price_node (PDict nd) = Raise AttributeError).
Proof.
  split; [|split].
  - destruct v; try contradiction; reflexivity.
  - intros H Ht Hc. unfold _format_price_node, py_or. cbn [py_get hashable].
    rewrite H. cbn [rbind]. rewrite Ht.
    destruct (dict_find nd (PStr "cash")) as [cv|]; cbn [rbind];
      [destruct (truthy cv)|]; destruct c; try contradiction; reflexivity.
  - intros H1 H2 Ht Hc. unfold _format_price_node, py_or. cbn [py_get hashable].
    rewrite H1, H2. cbn [rbind truthy]. rewrite Ht. simpl.
    destruct c; try contradiction; reflexivity.
Qed.

Lemma format_price_node_attribute_error_witness :
  _format_price_node (PStr "regular_gas") = Raise AttributeError /\
  _format_price_node (PDict [(PStr "credit", PStr "Flemmit")]) = Raise AttributeError /\
  _format_price_node (PDict [(PStr "cash", PList [PNum 3])]) = Raise AttributeError.
Proof.
  split; [apply (proj1 (format_price_node_attribute_error (PStr "regular_gas") [] PNone));
          exact I|].
  split.
  - apply (proj1 (proj2 (format_price_node_attribute_error PNone
             [(PStr "credit", PStr "Flemmit")] (PStr "Flemmit"))));
      [reflexivity | reflexivity | exact I].
  - apply (proj2 (proj2 (format_price_node_attribute_error PNone
             [(PStr "cash", PList [PNum 3])] (PList [PNum 3]))));
      [reflexivity | reflexivity | reflexivity | exact I].
Defined.
